(** * Google Lens batch crawler ([main.py]): model and verified properties

    The program drives a headless browser over a mapping from identifiers
    to image URLs, reads the metadata of the first match of each image and
    appends the collected rows to a CSV file.

    The development follows the source function by function.  Code that
    talks to the browser runs in a small state-and-exception monad whose
    state holds the browser (the collaborator, an arbitrary [Backend]) and
    the trace of observable events of one task (sessions opened and closed,
    sleeps, log lines).  The coordinator runs on a second state holding the
    file system. *)

From stdpp Require Import gmap strings list fin_maps pretty.
From Stdlib Require Import ZArith.

Open Scope string_scope.
Open Scope Z_scope.

(** ** Python values, exceptions and results *)

(** The values stored in the dictionaries of the program. *)
Inductive pyval :=
| PNone
| PInt (z : Z)
| PStr (s : string).

#[global] Instance pyval_eq_dec : EqDecision pyval.
Proof. solve_decision. Defined.

(** [m.get(k, d)] on a Python dict. *)
Definition dict_get (m : gmap string pyval) (k : string) (d : pyval) : pyval :=
  default d (m !! k).

(** Truth value of a dict: only the empty dict is falsy. *)
Definition dict_truthy (m : gmap string pyval) : bool :=
  negb (bool_decide (m = ∅)).

(** The exception classes the program meets.  [TimeoutException] and
    [NoSuchElementException] are subclasses of [WebDriverException]; every
    class is a subclass of [Exception]. *)
Inductive exn_class :=
| TimeoutException
| NoSuchElementException
| WebDriverException
| AttributeError
| ValueError
| FileNotFoundError
| IsADirectoryError
| OSError
| UnicodeEncodeError
| PyException.

Record exn := Exn { exn_cls : exn_class; exn_msg : string }.

#[global] Instance exn_class_eq_dec : EqDecision exn_class.
Proof. solve_decision. Defined.
#[global] Instance exn_eq_dec : EqDecision exn.
Proof. solve_decision. Defined.

Definition is_TimeoutException (e : exn) : bool :=
  match exn_cls e with TimeoutException => true | _ => false end.

Definition is_WebDriverException (e : exn) : bool :=
  match exn_cls e with
  | TimeoutException | NoSuchElementException | WebDriverException => true
  | _ => false
  end.

(** [str(e)], as interpolated into the log lines. *)
Definition str_exn (e : exn) : string := exn_msg e.

Inductive res (A : Type) :=
| Ok (a : A)
| Raise (e : exn).
Arguments Ok {A} a.
Arguments Raise {A} e.

Definition raises {A} (r : res A) : bool :=
  match r with Raise _ => true | Ok _ => false end.

(** ** The collaborator *)

(** Handles of sessions and of page elements. *)
Definition Driver := nat.
Definition Element := nat.

Inductive By := XPATH | CSS_SELECTOR.

(** The page-automation client (Selenium in the source), over a browser
    state [B].  Every call may raise.  A call that returns an element
    returns [Some el], or [None] for a falsy value; Selenium's elements are
    always truthy, and its [find_element] raises [NoSuchElementException]
    when nothing matches.  [wait_presence d by sel t] stands for
    [WebDriverWait(d, t).until(EC.presence_of_element_located((by, sel)))].
    [quit] does not raise: Chrome's [quit] swallows the errors of the
    remote end. *)
Record Backend (B : Type) := {
  chrome : B -> res Driver * B;
  set_page_load_timeout : Driver -> Z -> B -> res unit * B;
  get : Driver -> string -> B -> res unit * B;
  wait_presence : Driver -> By -> string -> Z -> B -> res (option Element) * B;
  click : Element -> B -> res unit * B;
  find_element : Element -> By -> string -> B -> res (option Element) * B;
  text : Element -> B -> res string * B;
  get_attribute : Element -> string -> B -> res (option string) * B;
  quit : Driver -> B -> B
}.
Arguments chrome {B} _ _.
Arguments set_page_load_timeout {B} _ _ _ _.
Arguments get {B} _ _ _ _.
Arguments wait_presence {B} _ _ _ _ _ _.
Arguments click {B} _ _ _.
Arguments find_element {B} _ _ _ _ _.
Arguments text {B} _ _ _.
Arguments get_attribute {B} _ _ _ _.
Arguments quit {B} _ _ _.

(** ** Observable events of one task *)

Inductive level := INFO | ERROR.

Inductive event :=
| EvChrome (r : res Driver)   (* one call of [webdriver.Chrome] and its outcome *)
| EvQuit (d : Driver)         (* [driver.quit()] *)
| EvSleep (secs : Z)          (* [time.sleep(secs)] *)
| EvLog (lvl : level) (msg : string).

#[global] Instance level_eq_dec : EqDecision level.
Proof. solve_decision. Defined.
#[global] Instance res_eq_dec {A} `{EqDecision A} : EqDecision (res A).
Proof. solve_decision. Defined.
#[global] Instance event_eq_dec : EqDecision event.
Proof. solve_decision. Defined.

Record St (B : Type) := mkSt { browser : B; trace : list event }.
Arguments mkSt {B} _ _.
Arguments browser {B} _.
Arguments trace {B} _.

(** ** The monad of one task: state and exceptions *)

Definition M (B A : Type) : Type := St B -> res A * St B.

Definition ret {B A} (a : A) : M B A := fun s => (Ok a, s).

Definition raise {B A} (e : exn) : M B A := fun s => (Raise e, s).

Definition bind {B A C} (m : M B A) (k : A -> M B C) : M B C :=
  fun s => match m s with
           | (Ok a, s') => k a s'
           | (Raise e, s') => (Raise e, s')
           end.

Notation "'do' x <- m ; k" := (bind m (fun x => k))
  (at level 10, x name, m at level 100, k at level 200).

(** [try: body except ...: handler].  The handler returns [None] for an
    exception no [except] clause matches, which is then raised again. *)
Definition try_except {B A} (body : M B A) (handler : exn -> option (M B A)) : M B A :=
  fun s => match body s with
           | (Ok a, s') => (Ok a, s')
           | (Raise e, s') =>
               match handler e with
               | Some h => h s'
               | None => (Raise e, s')
               end
           end.

(** [try: body finally: cleanup]: the clean-up runs on every exit of the
    body; an exception of the clean-up replaces the pending outcome. *)
Definition try_finally {B A} (body : M B A) (cleanup : M B unit) : M B A :=
  fun s => match body s with
           | (r, s') =>
               match cleanup s' with
               | (Ok _, s'') => (r, s'')
               | (Raise e, s'') => (Raise e, s'')
               end
           end.

Definition emit {B} (ev : event) : M B unit :=
  fun s => (Ok tt, mkSt (browser s) (trace s ++ [ev])).

Definition logging_info {B} (msg : string) : M B unit := emit (EvLog INFO msg).
Definition logging_error {B} (msg : string) : M B unit := emit (EvLog ERROR msg).
Definition time_sleep {B} (secs : Z) : M B unit := emit (EvSleep secs).

(** A call of the collaborator: it acts on the browser only. *)
Definition call {B A} (f : B -> res A * B) : M B A :=
  fun s => match f (browser s) with
           | (r, b') => (r, mkSt b' (trace s))
           end.

(** ** The steps of one fetch *)

Section Fetch.

Context {B : Type} (bk : Backend B).

(** [webdriver.Chrome(options=options)], recorded in the trace. *)
Definition webdriver_Chrome : M B Driver :=
  fun s => match chrome bk (browser s) with
           | (r, b') => (r, mkSt b' (trace s ++ [EvChrome r]))
           end.

Definition driver_quit (driver : Driver) : M B unit :=
  fun s => (Ok tt, mkSt (quit bk driver (browser s)) (trace s ++ [EvQuit driver])).

(** The body of the [try] of [init_driver]; building the options does not
    touch the browser. *)
Definition init_attempt : M B Driver :=
  do driver <- webdriver_Chrome;
  do _ <- logging_info "WebDriver initialized successfully";
  ret driver.

Definition init_failed : exn :=
  Exn PyException "Failed to initialize WebDriver after multiple attempts".

(** The loop of [init_driver]: [fuel] is [retries - attempt], the number of
    iterations that [while attempt < retries] still allows. *)
Fixpoint init_driver_loop (fuel attempt : nat) : M B Driver :=
  match fuel with
  | O => raise init_failed
  | S fuel' =>
      try_except init_attempt
        (fun e =>
           if is_WebDriverException e then
             Some (let attempt := S attempt in
                   do _ <- logging_error ("WebDriver initialization attempt " ++ pretty attempt
                                     ++ " failed. Retrying... (" ++ str_exn e ++ ")");
                   do _ <- time_sleep 2;
                   init_driver_loop fuel' attempt)
           else None)
  end.

Definition init_driver (retries : nat) : M B Driver :=
  init_driver_loop retries 0.

Definition navigate_attempt (driver : Driver) (lens_url : string) (timeout : Z)
    : M B bool :=
  do _ <- call (set_page_load_timeout bk driver timeout);
  do _ <- call (get bk driver lens_url);
  do _ <- logging_info ("Successfully navigated to " ++ lens_url);
  ret true.

Fixpoint navigate_loop (driver : Driver) (lens_url : string) (timeout : Z)
    (retries fuel attempt : nat) : M B bool :=
  match fuel with
  | O => ret false
  | S fuel' =>
      try_except (navigate_attempt driver lens_url timeout)
        (fun e =>
           if is_TimeoutException e then
             Some (let attempt := S attempt in
                   do _ <- logging_error ("Timeout loading " ++ lens_url ++ ", retry "
                                     ++ pretty attempt ++ "/" ++ pretty retries);
                   do _ <- time_sleep 2;
                   navigate_loop driver lens_url timeout retries fuel' attempt)
           else
             Some (let attempt := S attempt in
                   do _ <- logging_error ("Could not navigate to " ++ lens_url ++ ", retry "
                                     ++ pretty attempt ++ "/" ++ pretty retries ++ ". "
                                     ++ str_exn e);
                   do _ <- time_sleep 2;
                   navigate_loop driver lens_url timeout retries fuel' attempt))
  end.

Definition lens_url_of (image_url : string) : string :=
  "https://lens.google.com/uploadbyurl?url=" ++ image_url.

Definition navigate_to_lens (driver : Driver) (image_url : string)
    (timeout : Z) (retries : nat) : M B bool :=
  let lens_url := lens_url_of image_url in
  navigate_loop driver lens_url timeout retries retries 0.

Definition no_image_xpath : string :=
  "//*[contains(text(), 'No image at that URL')]".

Definition check_no_image_error (driver : Driver) : M B bool :=
  try_except
    (do error_message <- call (wait_presence bk driver XPATH no_image_xpath 10);
     match error_message with
     | Some _ => do _ <- logging_error "No image found at the URL."; ret true
     | None => ret false
     end)
    (fun e => if is_TimeoutException e then Some (ret false) else None).

(** [x.click()] where [x] may be [None]. *)
Definition py_click (x : option Element) : M B unit :=
  match x with
  | Some el => call (click bk el)
  | None => raise (Exn AttributeError "'NoneType' object has no attribute 'click'")
  end.

Definition click_attempt (driver : Driver) (button_selector : string) : M B bool :=
  do button <- call (wait_presence bk driver CSS_SELECTOR button_selector 60);
  do _ <- py_click button;
  do _ <- logging_info "Clicked 'Find image source' button";
  ret true.

Fixpoint click_loop (driver : Driver) (button_selector : string)
    (retries fuel attempt : nat) : M B bool :=
  match fuel with
  | O => ret false
  | S fuel' =>
      try_except (click_attempt driver button_selector)
        (fun e =>
           Some (let attempt := S attempt in
                 do _ <- logging_error ("Could not click the 'Find image source' button, retry "
                                   ++ pretty attempt ++ "/" ++ pretty retries ++ ". "
                                   ++ str_exn e);
                 do _ <- time_sleep 2;
                 click_loop driver button_selector retries fuel' attempt))
  end.

Definition find_source_button : string :=
  "button.VfPpkd-LgbsSe.VfPpkd-LgbsSe-OWXEXe-INsAgc".

Definition wait_and_click_find_image_source (driver : Driver) (retries : nat) : M B bool :=
  let button_selector := find_source_button in
  click_loop driver button_selector retries retries 0.

(** [x.find_element(By.CSS_SELECTOR, sel)] where [x] may be [None]. *)
Definition py_find_element (x : option Element) (sel : string) : M B (option Element) :=
  match x with
  | Some el => call (find_element bk el CSS_SELECTOR sel)
  | None => raise (Exn AttributeError "'NoneType' object has no attribute 'find_element'")
  end.

(** [x.text] where [x] may be [None]. *)
Definition py_text (x : option Element) : M B string :=
  match x with
  | Some el => call (text bk el)
  | None => raise (Exn AttributeError "'NoneType' object has no attribute 'text'")
  end.

Definition py_get_attribute (x : option Element) (name : string) : M B (option string) :=
  match x with
  | Some el => call (get_attribute bk el name)
  | None => raise (Exn AttributeError "'NoneType' object has no attribute 'get_attribute'")
  end.

Definition pyval_of_opt (o : option string) : pyval :=
  match o with Some s => PStr s | None => PNone end.

(** [element.find_element(sel).text if element.find_element(sel) else None]:
    the condition is evaluated first, and the element is looked up a second
    time when it is truthy. *)
Definition text_if_found (element : option Element) (sel : string) : M B pyval :=
  do cond <- py_find_element element sel;
  match cond with
  | Some _ =>
      do found <- py_find_element element sel;
      do t <- py_text found;
      ret (PStr t)
  | None => ret PNone
  end.

Definition metadata_dict (title source link : pyval) : gmap string pyval :=
  <["position" := PInt 1]> (<["title" := title]> (<["source" := source]>
    (<["link" := link]> ∅))).

Definition extract_attempt (driver : Driver) : M B (option (gmap string pyval)) :=
  do element <- call (wait_presence bk driver CSS_SELECTOR "li.anSuc a.GZrdsf" 60);
  do title <- text_if_found element ".iJmjmd";
  do source <- text_if_found element ".ShWW9";
  do link <- py_get_attribute element "href";
  do _ <- logging_info "Successfully extracted metadata";
  ret (Some (metadata_dict title source (pyval_of_opt link))).

Fixpoint extract_loop (driver : Driver) (retries fuel attempt : nat)
    : M B (option (gmap string pyval)) :=
  match fuel with
  | O => ret None
  | S fuel' =>
      try_except (extract_attempt driver)
        (fun e =>
           Some (let attempt := S attempt in
                 do _ <- logging_error ("Could not extract metadata, retry "
                                   ++ pretty attempt ++ "/" ++ pretty retries ++ ". "
                                   ++ str_exn e);
                 do _ <- time_sleep 2;
                 extract_loop driver retries fuel' attempt))
  end.

Definition extract_first_image_metadata (driver : Driver) (retries : nat)
    : M B (option (gmap string pyval)) :=
  extract_loop driver retries retries 0.

(** The body of the [try] block of [get_first_image_metadata]. *)
Definition fetch_steps (driver : Driver) (image_url : string)
    : M B (option (gmap string pyval)) :=
  do navigated <- navigate_to_lens driver image_url 60 1;
  if negb navigated then ret None else
  do no_image <- check_no_image_error driver;
  if no_image then ret None else
  do clicked <- wait_and_click_find_image_source driver 1;
  if negb clicked then ret None else
  extract_first_image_metadata driver 1.

Definition get_first_image_metadata (image_url : string)
    : M B (option (gmap string pyval)) :=
  do driver <- init_driver 3;
  try_finally (fetch_steps driver image_url) (driver_quit driver).

(** [not image_data]: [None] and the empty dict are falsy. *)
Definition falsy_data (image_data : option (gmap string pyval)) : bool :=
  match image_data with
  | None => true
  | Some d => negb (dict_truthy d)
  end.

Definition output_row (image_id image_url : string) (image_data : gmap string pyval)
    : gmap string pyval :=
  <["id" := PStr image_id]> (<["url" := PStr image_url]>
    (<["position" := dict_get image_data "position" (PStr "N/A")]>
    (<["title" := dict_get image_data "title" (PStr "N/A")]>
    (<["source" := dict_get image_data "source" (PStr "N/A")]>
    (<["link" := dict_get image_data "link" (PStr "N/A")]> ∅))))).

Definition process_image (image_id image_url csv_file_path : string)
    : M B (option (gmap string pyval)) :=
  do image_data <- get_first_image_metadata image_url;
  match image_data with
  | Some d =>
      if falsy_data image_data then
        do _ <- logging_error ("No data for image " ++ image_id ++ ".");
        ret None
      else ret (Some (output_row image_id image_url d))
  | None =>
      do _ <- logging_error ("No data for image " ++ image_id ++ ".");
      ret None
  end.

End Fetch.


(** ** The coordinator and the sink *)

(** A CSV file as its lines, a line as its cells (before quoting). *)
Definition File := list (list string).

Inductive open_mode := ModeW | ModeA.

Inductive sysop :=
| SysOpen (path : string) (mode : open_mode)
| SysWriteHeader (path : string)
| SysWriteRows (path : string) (n : nat)
| SysLog (lvl : level) (msg : string).

#[global] Instance open_mode_eq_dec : EqDecision open_mode.
Proof. solve_decision. Defined.
#[global] Instance sysop_eq_dec : EqDecision sysop.
Proof. solve_decision. Defined.

(** What stands at a path: a regular file the process may write, with its
    lines, or something that makes [open] fail (a directory, a file the
    process may not write, a path whose directory is missing), with the
    error [open] raises there. *)
Inductive node :=
| Regular (content : File)
| Obstacle (e : exn).

(** The state of the main thread: what stands at each path, and the journal
    of what the main thread did to the files. *)
Record Sys := mkSys { nodes : gmap string node; journal : list sysop }.

Fixpoint has_nul (path : string) : bool :=
  match path with
  | EmptyString => false
  | String a rest => Ascii.eqb a Ascii.zero || has_nul rest
  end.

(** The strings [open] refuses whatever the file system holds: the empty
    path, the root directory, a path with a NUL. *)
Definition path_error (path : string) : option exn :=
  if String.eqb path "" then
    Some (Exn FileNotFoundError "[Errno 2] No such file or directory: ''")
  else if String.eqb path "/" then
    Some (Exn IsADirectoryError "[Errno 21] Is a directory: '/'")
  else if has_nul path then
    Some (Exn ValueError "embedded null byte")
  else None.

Definition regular (n : node) : option File :=
  match n with
  | Regular content => Some content
  | Obstacle _ => None
  end.

(** The files of the system: the lines of each regular file. *)
Definition files (sys : Sys) : gmap string File :=
  map_imap (fun path n => match path_error path with
                          | None => regular n
                          | Some _ => None
                          end) (nodes sys).

(** The lines of the regular file at a path, none when there is no such
    file. *)
Definition content (path : string) (sys : Sys) : File :=
  default [] (nodes sys !! path ≫= regular).

(** [open(path, mode)]: it raises on a path no file system accepts and on
    an obstacle; [mode='w'] creates or truncates the file; [mode='a']
    creates the file when it is missing and keeps its lines otherwise. *)
Definition sys_open (path : string) (mode : open_mode) (sys : Sys) : res unit * Sys :=
  match path_error path with
  | Some e => (Raise e, sys)
  | None =>
      match nodes sys !! path with
      | Some (Obstacle e) => (Raise e, sys)
      | _ =>
          (Ok tt,
           mkSys (<[path := Regular (match mode with
                                     | ModeW => []
                                     | ModeA => content path sys
                                     end)]> (nodes sys))
                 (journal sys ++ [SysOpen path mode]))
      end
  end.

(** The lines that reach an open file, at its end. *)
Definition sys_write (path : string) (lines : File) (op : sysop) (sys : Sys) : Sys :=
  mkSys (<[path := Regular (content path sys ++ lines)%list]> (nodes sys))
        (journal sys ++ [op]).

(** A Python [str] is held as the bytes of its UTF-8 encoding; a lone
    surrogate, which UTF-8 cannot encode, is held in the three bytes of
    its generalised form, [ED] then a byte from [A0] up, which no encodable
    [str] contains.  [encodable s] tells whether [s.encode('utf-8')]
    succeeds. *)
Fixpoint encodable (s : string) : bool :=
  match s with
  | EmptyString => true
  | String a rest =>
      match rest with
      | String b _ =>
          if Ascii.eqb a (Ascii.ascii_of_nat 237)
             && Nat.leb 160 (Ascii.nat_of_ascii b)
          then false else encodable rest
      | EmptyString => encodable rest
      end
  end.

Definition encodable_line (line : list string) : bool := forallb encodable line.

Definition unicode_error : exn :=
  Exn UnicodeEncodeError "'utf-8' codec can't encode character: surrogates not allowed".

(** The writer hands the file one line at a time; the file, opened with
    [encoding='utf-8'], encodes each line as it takes it and raises on a
    line it cannot encode.  The lines taken before stay in the file, which
    is flushed when the [with] block closes it.  The result is the outcome
    and the lines that reached the file. *)
Fixpoint write_lines (lines : File) : res unit * File :=
  match lines with
  | [] => (Ok tt, [])
  | line :: rest =>
      if encodable_line line then
        match write_lines rest with
        | (r, written) => (r, line :: written)
        end
      else (Raise unicode_error, [])
  end.

Definition fieldnames : list string :=
  ["id"; "url"; "position"; "title"; "source"; "link"].

(** How the [csv] module writes a value: [None] as the empty string, other
    values through [str]. *)
Definition csv_cell (v : pyval) : string :=
  match v with
  | PNone => ""
  | PInt z => pretty z
  | PStr s => s
  end.

(** [DictWriter._dict_to_list]: one cell per field name, in order; a key
    the row lacks is written as [restval], the empty string. *)
Definition dict_to_list (row : gmap string pyval) : list string :=
  (fun k => csv_cell (dict_get row k (PStr ""))) <$> fieldnames.

Definition writeheader (path : string) (sys : Sys) : res unit * Sys :=
  match write_lines [fieldnames] with
  | (r, written) => (r, sys_write path written (SysWriteHeader path) sys)
  end.

(** [writer.writerows(rows)]; the journal records how many rows reached the
    file. *)
Definition writerows (path : string) (rows : list (gmap string pyval)) (sys : Sys)
    : res unit * Sys :=
  match write_lines (dict_to_list <$> rows) with
  | (r, written) => (r, sys_write path written (SysWriteRows path (length written)) sys)
  end.

(** What a future holds once its task is done: the value [process_image]
    returned, or the exception it raised. *)
Definition Future := res (option (gmap string pyval)).

(** [as_completed]: the futures in the order in which their tasks finish,
    which the thread pool decides; all that is known of it is that every
    submitted future is yielded once.  The pool size is an input of the
    choice. *)
Record Scheduler := mkScheduler {
  as_completed : Z -> list Future -> list Future;
  as_completed_perm : forall w fs, as_completed w fs ≡ₚ fs
}.

(** The loop over the completed futures; [future.result()] raises what the
    task raised. *)
Fixpoint collect (completed : list Future) (all_data : list (gmap string pyval))
    : res (list (gmap string pyval)) :=
  match completed with
  | [] => Ok all_data
  | future :: rest =>
      match future with
      | Raise e => Raise e
      | Ok result =>
          match result with
          | Some row =>
              if dict_truthy row then collect rest (all_data ++ [row])
              else collect rest all_data
          | None => collect rest all_data
          end
      end
  end.

Section Batch.

Context {B : Type} (bk : Backend B).

(** The browser each task meets: tasks share no state, each one owns its
    session, so the collaborator is given per task. *)
Variable world : string -> string -> B.

Variable sched : Scheduler.

(** One submitted task, run to its end. *)
Definition run_task (image_id image_url csv_file_path : string)
    : Future * St B :=
  process_image bk image_id image_url csv_file_path (mkSt (world image_id image_url) []).

Definition submit_all (urls_data : gmap string string) (csv_file_path : string)
    : list Future :=
  (fun item => fst (run_task item.1 item.2 csv_file_path)) <$> map_to_list urls_data.

(** The tasks a run performs: none when the pool cannot be built
    ([ThreadPoolExecutor] raises [ValueError] for a size below 1). *)
Definition fetches (urls_data : gmap string string) (csv_file_path : string)
    (max_workers : Z) : list Future :=
  if max_workers <=? 0 then [] else submit_all urls_data csv_file_path.

Definition process_images_concurrently (urls_data : gmap string string)
    (csv_file_path : string) (max_workers : Z) (sys : Sys) : res unit * Sys :=
  if max_workers <=? 0 then
    (Raise (Exn ValueError "max_workers must be greater than 0"), sys)
  else
    let futures := submit_all urls_data csv_file_path in
    match collect (as_completed sched max_workers futures) [] with
    | Raise e => (Raise e, sys)
    | Ok all_data =>
        match sys_open csv_file_path ModeA sys with
        | (Raise e, sys) => (Raise e, sys)
        | (Ok _, sys) => writerows csv_file_path all_data sys
        end
    end.

(** [main] after the arguments are parsed and the JSON file is loaded. *)
Definition main (urls_data : gmap string string) (csv_file_path : string)
    (max_workers : Z) (sys : Sys) : res unit * Sys :=
  match sys_open csv_file_path ModeW sys with
  | (Raise e, sys) => (Raise e, sys)
  | (Ok _, sys) =>
      match writeheader csv_file_path sys with
      | (Raise e, sys) => (Raise e, sys)
      | (Ok _, sys) =>
          match process_images_concurrently urls_data csv_file_path max_workers sys with
          | (Ok _, sys) =>
              (Ok tt,
               mkSys (nodes sys) (journal sys ++ [SysLog INFO "All data saved to CSV."]))
          | (Raise e, sys) => (Raise e, sys)
          end
      end
  end.

(** The data rows of the output file: its lines after the first. *)
Definition data_rows (csv_file_path : string) (sys : Sys) : File :=
  drop 1 (default [] (files sys !! csv_file_path)).

End Batch.

(** ** A concrete collaborator: Selenium on static pages *)

Module Static.

(** The first entry of the result list: the texts of its title and source
    sub-elements and its [href], each possibly missing from the page. *)
Record Entry := mkEntry {
  e_title : option string;
  e_source : option string;
  e_href : option string
}.

(** What the browser shows for one image.  [chrome_failures] counts the
    calls of [webdriver.Chrome] that fail before one succeeds.  When
    [alive] is false the session dies once the page is loaded, and every
    wait raises a [WebDriverException] that is not a timeout. *)
Record Page := mkPage {
  chrome_failures : nat;
  loads : bool;
  no_image : bool;
  button : bool;
  entry : option Entry;
  alive : bool
}.

Definition timeout_exn : exn := Exn TimeoutException "Message: ".
Definition no_such_element : exn :=
  Exn NoSuchElementException "Message: no such element: Unable to locate element".
Definition invalid_session : exn :=
  Exn WebDriverException "Message: invalid session id".

Definition el_error : Element := 1%nat.
Definition el_button : Element := 2%nat.
Definition el_entry : Element := 3%nat.
Definition el_title : Element := 4%nat.
Definition el_source : Element := 5%nat.

Definition s_chrome (p : Page) : res Driver * Page :=
  match chrome_failures p with
  | O => (Ok 0%nat, p)
  | S n => (Raise (Exn WebDriverException "Message: session not created"),
            mkPage n (loads p) (no_image p) (button p) (entry p) (alive p))
  end.

Definition s_get (d : Driver) (url : string) (p : Page) : res unit * Page :=
  if loads p then (Ok tt, p) else (Raise timeout_exn, p).

Definition s_wait (d : Driver) (by_ : By) (sel : string) (t : Z) (p : Page)
    : res (option Element) * Page :=
  if negb (alive p) then (Raise invalid_session, p) else
  match by_ with
  | XPATH => if no_image p then (Ok (Some el_error), p) else (Raise timeout_exn, p)
  | CSS_SELECTOR =>
      if String.eqb sel "li.anSuc a.GZrdsf" then
        match entry p with
        | Some _ => (Ok (Some el_entry), p)
        | None => (Raise timeout_exn, p)
        end
      else if button p then (Ok (Some el_button), p) else (Raise timeout_exn, p)
  end.

Definition s_find (el : Element) (by_ : By) (sel : string) (p : Page)
    : res (option Element) * Page :=
  match entry p with
  | Some en =>
      if String.eqb sel ".iJmjmd" then
        match e_title en with
        | Some _ => (Ok (Some el_title), p)
        | None => (Raise no_such_element, p)
        end
      else if String.eqb sel ".ShWW9" then
        match e_source en with
        | Some _ => (Ok (Some el_source), p)
        | None => (Raise no_such_element, p)
        end
      else (Raise no_such_element, p)
  | None => (Raise no_such_element, p)
  end.

Definition s_text (el : Element) (p : Page) : res string * Page :=
  match entry p with
  | Some en =>
      if Nat.eqb el el_title then (Ok (default "" (e_title en)), p)
      else if Nat.eqb el el_source then (Ok (default "" (e_source en)), p)
      else (Ok "", p)
  | None => (Ok "", p)
  end.

Definition s_attr (el : Element) (name : string) (p : Page)
    : res (option string) * Page :=
  match entry p with
  | Some en => if String.eqb name "href" then (Ok (e_href en), p) else (Ok None, p)
  | None => (Ok None, p)
  end.

Definition selenium : Backend Page := {|
  chrome := s_chrome;
  set_page_load_timeout := fun _ _ p => (Ok tt, p);
  get := s_get;
  wait_presence := s_wait;
  click := fun _ p => (Ok tt, p);
  find_element := s_find;
  text := s_text;
  get_attribute := s_attr;
  quit := fun _ p => p
|}.

(** A page with a full first entry. *)
Definition page_match : Page :=
  mkPage 0 true false true
    (Some (mkEntry (Some "A cat") (Some "example.org") (Some "http://example.org/cat")))
    true.

(** "No image at that URL". *)
Definition page_no_match : Page := mkPage 0 true true false None true.

(** The browser never starts. *)
Definition page_no_session : Page := mkPage 3 true false true None true.

(** The first entry has no title sub-element. *)
Definition page_no_title : Page :=
  mkPage 0 true false true
    (Some (mkEntry None (Some "example.org") (Some "http://example.org/cat"))) true.

(** The anchor of the first entry has no [href]. *)
Definition page_no_href : Page :=
  mkPage 0 true false true (Some (mkEntry (Some "A cat") (Some "example.org") None)) true.

(** The session dies once the page is loaded. *)
Definition page_dead : Page :=
  mkPage 0 true false true
    (Some (mkEntry (Some "A cat") (Some "example.org") (Some "http://example.org/cat")))
    false.

(** The first entry has no source label. *)
Definition page_no_source : Page :=
  mkPage 0 true false true
    (Some (mkEntry (Some "A cat") None (Some "http://example.org/cat"))) true.

(** A stub collaborator that differs from Selenium in one point: looking up
    a sub-element the page lacks returns [None] instead of raising. *)
Definition s_find_or_none (el : Element) (by_ : By) (sel : string) (p : Page)
    : res (option Element) * Page :=
  match s_find el by_ sel p with
  | (Raise _, p') => (Ok None, p')
  | r => r
  end.

Definition stub : Backend Page := {|
  chrome := s_chrome;
  set_page_load_timeout := fun _ _ p => (Ok tt, p);
  get := s_get;
  wait_presence := s_wait;
  click := fun _ p => (Ok tt, p);
  find_element := s_find_or_none;
  text := s_text;
  get_attribute := s_attr;
  quit := fun _ p => p
|}.

Definition web (url : string) : Page :=
  if String.eqb url "http://x/1.png" then page_match
  else if String.eqb url "http://x/2.png" then page_no_match
  else if String.eqb url "http://x/3.png" then page_no_session
  else if String.eqb url "http://x/4.png" then page_no_title
  else if String.eqb url "http://x/5.png" then page_no_href
  else if String.eqb url "http://x/6.png" then page_no_source
  else if String.eqb url "http://x/7.png" then page_dead
  else page_no_match.

Definition world (image_id image_url : string) : Page := web image_url.

Definition in_order : Scheduler := mkScheduler (fun _ fs => fs) (fun _ fs => reflexivity fs).

Definition reversed : Scheduler := mkScheduler (fun _ fs => reverse fs) (fun _ fs => reverse_Permutation fs).

Definition sys0 : Sys := mkSys ∅ [].



(** The [str] that JSON writes "\ud800": one lone surrogate. *)
Definition lone_surrogate : string :=
  String (Ascii.ascii_of_nat 237)
    (String (Ascii.ascii_of_nat 160) (String (Ascii.ascii_of_nat 128) EmptyString)).

End Static.

(** ** Specification vocabulary *)

(** Events that neither open nor close a session. *)
Definition quiet (ev : event) : Prop :=
  match ev with
  | EvLog _ _ | EvSleep _ => True
  | EvChrome _ | EvQuit _ => False
  end.

(** The sessions a trace opens, and those it closes, in order. *)
Definition opened (evs : list event) : list Driver :=
  omap (fun ev => match ev with EvChrome (Ok d) => Some d | _ => None end) evs.

Definition closed (evs : list event) : list Driver :=
  omap (fun ev => match ev with EvQuit d => Some d | _ => None end) evs.

(** The number of calls of [webdriver.Chrome] in a trace. *)
Definition attempts (evs : list event) : nat :=
  length (omap (fun ev => match ev with EvChrome r => Some r | _ => None end) evs).

(** A computation that only adds quiet events to the trace. *)
Definition appends_quiet {B A} (m : M B A) : Prop :=
  forall s, exists evs, trace (m s).2 = (trace s ++ evs)%list /\ Forall quiet evs.

(** A computation that returns on every state. *)
Definition never_raises {B A} (m : M B A) : Prop :=
  forall s, exists a, (m s).1 = Ok a.

(** The events added to the trace between two states of a task. *)
Definition since {B} (s s' : St B) : list event :=
  drop (length (trace s)) (trace s').

(** The events of [init_driver] with [n] iterations left, and its outcome:
    a failed start that is caught is logged and followed by a 2 second
    sleep. *)
Inductive init_events : nat -> res Driver -> list event -> Prop :=
| ie_exhausted : init_events 0 (Raise init_failed) []
| ie_started n d :
    init_events (S n) (Ok d)
      [EvChrome (Ok d); EvLog INFO "WebDriver initialized successfully"]
| ie_escaped n e :
    is_WebDriverException e = false ->
    init_events (S n) (Raise e) [EvChrome (Raise e)]
| ie_retried n e msg r evs :
    is_WebDriverException e = true ->
    init_events n r evs ->
    init_events (S n) r (EvChrome (Raise e) :: EvLog ERROR msg :: EvSleep 2 :: evs).



(** The four ways a fetch fails once it holds a session [driver], from the
    state [s] reached when the session was acquired: the one navigation
    attempt raises; the no-match element is found; the one attempt to click
    raises; the one extraction attempt raises. *)
Inductive fails_after_acquisition {B} (bk : Backend B) (driver : Driver)
    (image_url : string) (s : St B) : Prop :=
| fail_navigation e s1 :
    navigate_attempt bk driver (lens_url_of image_url) 60 s = (Raise e, s1) ->
    fails_after_acquisition bk driver image_url s
| fail_no_match s1 s2 :
    navigate_to_lens bk driver image_url 60 1 s = (Ok true, s1) ->
    check_no_image_error bk driver s1 = (Ok true, s2) ->
    fails_after_acquisition bk driver image_url s
| fail_action s1 s2 e s3 :
    navigate_to_lens bk driver image_url 60 1 s = (Ok true, s1) ->
    check_no_image_error bk driver s1 = (Ok false, s2) ->
    click_attempt bk driver find_source_button s2 = (Raise e, s3) ->
    fails_after_acquisition bk driver image_url s
| fail_extraction s1 s2 s3 e s4 :
    navigate_to_lens bk driver image_url 60 1 s = (Ok true, s1) ->
    check_no_image_error bk driver s1 = (Ok false, s2) ->
    wait_and_click_find_image_source bk driver 1 s2 = (Ok true, s3) ->
    extract_attempt bk driver s3 = (Raise e, s4) ->
    fails_after_acquisition bk driver image_url s.

(** The row a finished task contributes, if any. *)
Definition row_of (f : Future) : option (gmap string pyval) :=
  match f with
  | Ok (Some row) => Some row
  | _ => None
  end.

(** A future whose row, if any, is a non-empty dict. *)
Definition sound_future (f : Future) : Prop :=
  forall row, f = Ok (Some row) -> dict_truthy row = true.

(** The rows a list of futures contributes, as lines of the file. *)
Definition lines_of (fs : list Future) : File := dict_to_list <$> omap row_of fs.

(** The value a returned dict holds under a key. *)
Definition field_of (f : Future) (k : string) : option pyval :=
  match f with
  | Ok (Some d) => d !! k
  | _ => None
  end.

(** The first entry of the result list renders on the page: the wait of the
    extraction returns its anchor. *)
Definition s_wait_entry_renders (p : Static.Page) : Prop :=
  wait_presence Static.selenium 0%nat CSS_SELECTOR "li.anSuc a.GZrdsf" 60 p
    = (Ok (Some Static.el_entry), p).

Definition returned_data (f : Future) : bool :=
  match f with
  | Ok (Some _) => true
  | _ => false
  end.

(** The number of data rows of a run is at most the size of the input and
    is the number of its fetches that returned a record. *)
Definition rows_match_returned_fetches {B} (bk : Backend B) world sched
    (urls_data : gmap string string) (csv : string) (max_workers : Z) (sys : Sys) : Prop :=
  let rows := data_rows csv (main bk world sched urls_data csv max_workers sys).2 in
  (length rows <= size urls_data)%nat /\
  length rows =
    length (filter (fun f => returned_data f = true)
              (fetches bk world urls_data csv max_workers)).



(** The input records whose tasks a run performs. *)
Definition tasks (urls_data : gmap string string) (max_workers : Z)
    : list (string * string) :=
  if max_workers <=? 0 then [] else map_to_list urls_data.

(** The keys of a metadata record. *)
Definition metadata_keys : list string := ["position"; "title"; "source"; "link"].

(** Example inputs. *)
Definition urls_ab : gmap string string :=
  <["a" := "http://x/1.png"]> (<["b" := "http://x/2.png"]> ∅).

Definition urls_ac : gmap string string :=
  <["a" := "http://x/1.png"]> (<["c" := "http://x/3.png"]> ∅).

Definition urls_ag : gmap string string :=
  <["a" := "http://x/1.png"]> (<["g" := "http://x/7.png"]> ∅).

(** Two records with a match each; the identifier of the second is a lone
    surrogate. *)
Definition urls_surrogate : gmap string string :=
  <["a" := "http://x/1.png"]> (<[Static.lone_surrogate := "http://x/1.png"]> ∅).

(** Two records with a match each. *)
Definition urls_ah : gmap string string :=
  <["a" := "http://x/1.png"]> (<["h" := "http://x/1.png"]> ∅).

Definition urls_d : gmap string string := <["d" := "http://x/4.png"]> ∅.

Definition urls_e : gmap string string := <["e" := "http://x/5.png"]> ∅.

Definition urls_f : gmap string string := <["f" := "http://x/6.png"]> ∅.

(** The output file can be opened for writing. *)
Definition sink_opens (csv : string) (sys : Sys) : Prop :=
  (sys_open csv ModeW sys).1 = Ok tt.

(** Every cell of every line can be encoded. *)
Definition all_encodable (lines : File) : Prop :=
  Forall (fun line => encodable_line line = true) lines.

(** The system after a run that opened the output file: the file holds the
    header and the lines that were written after it; the journal has the
    opening, the header and what followed. *)
Definition sink_after (csv : string) (sys : Sys) (written : File) (tail : list sysop)
    : Sys :=
  mkSys (<[csv := Regular (fieldnames :: written)]> (nodes sys))
        (journal sys ++ [SysOpen csv ModeW; SysWriteHeader csv] ++ tail).

(** The journal of the one append at the end of a run: [n] rows reached the
    file; the closing log line is there when the append did not raise. *)
Definition append_journal (csv : string) (n : nat) (logged : bool) : list sysop :=
  [SysOpen csv ModeA; SysWriteRows csv n]
  ++ (if logged then [SysLog INFO "All data saved to CSV."] else []).

(** The lengths of the sleeps of a trace, in order. *)
Definition sleeps (evs : list event) : list Z :=
  omap (fun ev => match ev with EvSleep secs => Some secs | _ => None end) evs.

(** A computation that adds no event to the trace. *)
Definition mute {B A} (m : M B A) : Prop :=
  forall s, trace (m s).2 = trace s.

(** A computation whose only event is an [INFO] line, written when it
    returns. *)
Definition logs_on_success {B A} (msg : string) (m : M B A) : Prop :=
  forall s,
    trace (m s).2 =
      match (m s).1 with
      | Ok _ => (trace s ++ [EvLog INFO msg])%list
      | Raise _ => trace s
      end.

(** The events of a retry loop with [n] rounds left and its verdict: each
    failed round writes an [ERROR] line and sleeps 2 seconds; a round that
    succeeds writes the [INFO] line of the step and ends the loop. *)
Inductive retry_events (ok_msg : string) : nat -> bool -> list event -> Prop :=
| re_exhausted : retry_events ok_msg 0 false []
| re_success n : retry_events ok_msg (S n) true [EvLog INFO ok_msg]
| re_retry n msg b evs :
    retry_events ok_msg n b evs ->
    retry_events ok_msg (S n) b (EvLog ERROR msg :: EvSleep 2 :: evs).

(** * Properties *)

(** ** The monad and the steps *)

Ltac munfold :=
  unfold bind, ret, raise, try_except, try_finally, emit, logging_info,
    logging_error, time_sleep, call in *.

Section FetchFacts.

Context {B : Type} (bk : Backend B).

Lemma appends_ret {A} (a : A) : appends_quiet (ret (B:=B) a).
Proof. intros s. exists []. simpl. by rewrite app_nil_r. Qed.

Lemma appends_raise {A} e : appends_quiet (raise (B:=B) (A:=A) e).
Proof. intros s. exists []. simpl. by rewrite app_nil_r. Qed.

Lemma appends_emit ev : quiet ev -> appends_quiet (emit (B:=B) ev).
Proof. intros Hq s. exists [ev]. simpl. split; [done | by constructor]. Qed.

Lemma appends_call {A} (f : B -> res A * B) : appends_quiet (call f).
Proof.
  intros s. exists []. unfold call. destruct (f (browser s)) as [r b'].
  simpl. by rewrite app_nil_r.
Qed.

Lemma appends_bind {A C} (m : M B A) (k : A -> M B C) :
  appends_quiet m -> (forall a, appends_quiet (k a)) -> appends_quiet (bind m k).
Proof.
  intros Hm Hk s. unfold bind. destruct (Hm s) as (evs & Ht & Hq).
  destruct (m s) as [[a | e] s1]; simpl in Ht.
  - destruct (Hk a s1) as (evs' & Ht' & Hq').
    exists (evs ++ evs')%list. rewrite Ht', Ht, app_assoc. split; [done |].
    by apply Forall_app.
  - exists evs. simpl. done.
Qed.

Lemma appends_try_except {A} (body : M B A) handler :
  appends_quiet body ->
  (forall e h, handler e = Some h -> appends_quiet h) ->
  appends_quiet (try_except body handler).
Proof.
  intros Hb Hh s. unfold try_except. destruct (Hb s) as (evs & Ht & Hq).
  destruct (body s) as [[a | e] s1]; simpl in Ht.
  - exists evs. done.
  - destruct (handler e) as [h |] eqn:He.
    + destruct (Hh e h He s1) as (evs' & Ht' & Hq').
      exists (evs ++ evs')%list. rewrite Ht', Ht, app_assoc. split; [done |].
      by apply Forall_app.
    + exists evs. done.
Qed.

Lemma never_raises_ret {A} (a : A) : never_raises (ret (B:=B) a).
Proof. intros s. by exists a. Qed.

Lemma never_raises_emit ev : never_raises (emit (B:=B) ev).
Proof. intros s. by exists tt. Qed.

Lemma never_raises_bind {A C} (m : M B A) (k : A -> M B C) :
  never_raises m -> (forall a, never_raises (k a)) -> never_raises (bind m k).
Proof.
  intros Hm Hk s. unfold bind. destruct (Hm s) as [a Ha].
  destruct (m s) as [[a' | e] s1]; simpl in Ha; [| done].
  apply Hk.
Qed.

(** A [try] whose handlers catch everything and return. *)
Lemma never_raises_try_except {A} (body : M B A) handler :
  (forall e, exists h, handler e = Some h /\ never_raises h) ->
  never_raises (try_except body handler).
Proof.
  intros Hh s. unfold try_except. destruct (body s) as [[a | e] s1].
  - by exists a.
  - destruct (Hh e) as (h & -> & Hn). apply Hn.
Qed.

Ltac quiet_step :=
  first
    [ apply appends_ret | apply appends_raise | apply appends_call
    | apply appends_emit; exact I
    | apply appends_bind; [| intros ?] ].

Ltac total_step :=
  first
    [ apply never_raises_ret | apply never_raises_emit
    | apply never_raises_bind; [| intros ?] ].

(** *** Navigation *)

Lemma navigate_attempt_quiet driver lens_url timeout :
  appends_quiet (navigate_attempt bk driver lens_url timeout).
Proof. unfold navigate_attempt, logging_info. repeat quiet_step. Qed.

Lemma navigate_loop_quiet driver lens_url timeout retries fuel attempt :
  appends_quiet (navigate_loop bk driver lens_url timeout retries fuel attempt).
Proof.
  revert attempt. induction fuel as [| fuel IH]; intros attempt; simpl.
  - apply appends_ret.
  - apply appends_try_except; [apply navigate_attempt_quiet |].
    intros e h He. unfold logging_error, time_sleep in He.
    destruct (is_TimeoutException e); injection He as <-;
      repeat quiet_step; apply IH.
Qed.

Lemma navigate_loop_total driver lens_url timeout retries fuel attempt :
  never_raises (navigate_loop bk driver lens_url timeout retries fuel attempt).
Proof.
  revert attempt. induction fuel as [| fuel IH]; intros attempt; simpl.
  - apply never_raises_ret.
  - apply never_raises_try_except. intros e. unfold logging_error, time_sleep.
    destruct (is_TimeoutException e); eexists; (split; [reflexivity |]);
      repeat total_step; apply IH.
Qed.

(** With the default single attempt, a navigation that raises makes
    [navigate_to_lens] return [False]. *)
Lemma navigate_to_lens_failed driver image_url e s s1 :
  navigate_attempt bk driver (lens_url_of image_url) 60 s = (Raise e, s1) ->
  exists s2, navigate_to_lens bk driver image_url 60 1 s = (Ok false, s2).
Proof.
  intros H. unfold navigate_to_lens. simpl. unfold try_except. rewrite H.
  destruct (is_TimeoutException e); munfold; simpl; eauto.
Qed.

(** *** No-match detection *)

Lemma check_no_image_error_quiet driver :
  appends_quiet (check_no_image_error bk driver).
Proof.
  unfold check_no_image_error. apply appends_try_except.
  - unfold logging_error. quiet_step; [quiet_step |].
    destruct a; repeat quiet_step.
  - intros e h He. destruct (is_TimeoutException e); [| done].
    injection He as <-. apply appends_ret.
Qed.

(** *** The action *)

Lemma click_attempt_quiet driver sel : appends_quiet (click_attempt bk driver sel).
Proof.
  unfold click_attempt, logging_info, py_click. quiet_step; [quiet_step |].
  quiet_step; [destruct a; quiet_step |]. repeat quiet_step.
Qed.

Lemma click_loop_quiet driver sel retries fuel attempt :
  appends_quiet (click_loop bk driver sel retries fuel attempt).
Proof.
  revert attempt. induction fuel as [| fuel IH]; intros attempt; simpl.
  - apply appends_ret.
  - apply appends_try_except; [apply click_attempt_quiet |].
    intros e h He. unfold logging_error, time_sleep in He.
    injection He as <-. repeat quiet_step; apply IH.
Qed.

Lemma click_loop_total driver sel retries fuel attempt :
  never_raises (click_loop bk driver sel retries fuel attempt).
Proof.
  revert attempt. induction fuel as [| fuel IH]; intros attempt; simpl.
  - apply never_raises_ret.
  - apply never_raises_try_except. intros e. unfold logging_error, time_sleep.
    eexists; (split; [reflexivity |]). repeat total_step; apply IH.
Qed.

Lemma wait_and_click_failed driver e s s1 :
  click_attempt bk driver find_source_button s = (Raise e, s1) ->
  exists s2, wait_and_click_find_image_source bk driver 1 s = (Ok false, s2).
Proof.
  intros H. unfold wait_and_click_find_image_source. simpl. unfold try_except.
  rewrite H. munfold; simpl; eauto.
Qed.

(** *** Extraction *)

Lemma text_if_found_quiet element sel : appends_quiet (text_if_found bk element sel).
Proof.
  unfold text_if_found, py_find_element, py_text.
  quiet_step; [destruct element; quiet_step |].
  destruct a; [| quiet_step].
  quiet_step; [destruct element; quiet_step |].
  quiet_step; [destruct a; quiet_step |]. quiet_step.
Qed.

Lemma extract_attempt_quiet driver : appends_quiet (extract_attempt bk driver).
Proof.
  unfold extract_attempt, logging_info, py_get_attribute.
  quiet_step; [quiet_step |].
  quiet_step; [apply text_if_found_quiet |].
  quiet_step; [apply text_if_found_quiet |].
  quiet_step; [destruct a; quiet_step |]. repeat quiet_step.
Qed.

Lemma extract_loop_quiet driver retries fuel attempt :
  appends_quiet (extract_loop bk driver retries fuel attempt).
Proof.
  revert attempt. induction fuel as [| fuel IH]; intros attempt; simpl.
  - apply appends_ret.
  - apply appends_try_except; [apply extract_attempt_quiet |].
    intros e h He. unfold logging_error, time_sleep in He.
    injection He as <-. repeat quiet_step; apply IH.
Qed.

Lemma extract_loop_total driver retries fuel attempt :
  never_raises (extract_loop bk driver retries fuel attempt).
Proof.
  revert attempt. induction fuel as [| fuel IH]; intros attempt; simpl.
  - apply never_raises_ret.
  - apply never_raises_try_except. intros e. unfold logging_error, time_sleep.
    eexists; (split; [reflexivity |]). repeat total_step; apply IH.
Qed.

Lemma extract_failed driver e s s1 :
  extract_attempt bk driver s = (Raise e, s1) ->
  exists s2, extract_first_image_metadata bk driver 1 s = (Ok None, s2).
Proof.
  intros H. unfold extract_first_image_metadata. simpl. unfold try_except.
  rewrite H. munfold; simpl; eauto.
Qed.

(** An extraction attempt that returns, returns a record built by
    [metadata_dict]. *)
Lemma extract_attempt_ok driver s r s1 :
  extract_attempt bk driver s = (Ok r, s1) ->
  exists title source link, r = Some (metadata_dict title source link).
Proof.
  unfold extract_attempt, bind, ret. intros H.
  repeat case_match; simplify_eq. eauto.
Qed.

Lemma extract_loop_some driver retries fuel attempt s md s1 :
  extract_loop bk driver retries fuel attempt s = (Ok (Some md), s1) ->
  exists title source link, md = metadata_dict title source link.
Proof.
  revert attempt s. induction fuel as [| fuel IH]; intros attempt s; simpl.
  - unfold ret. intros H. simplify_eq.
  - unfold try_except.
    destruct (extract_attempt bk driver s) as [[r | e] s2] eqn:Ha.
    + intros H. simplify_eq. destruct (extract_attempt_ok _ _ _ _ Ha) as (t & so & l & Hr).
      simplify_eq. eauto.
    + unfold bind, logging_error, time_sleep, emit. apply IH.
Qed.

(** *** Session acquisition *)

Lemma since_app (s s' : St B) evs :
  trace s' = (trace s ++ evs)%list -> since s s' = evs.
Proof. intros H. unfold since. rewrite H. apply drop_app_length. Qed.

Lemma init_driver_loop_events fuel attempt s :
  exists evs,
    trace (init_driver_loop bk fuel attempt s).2 = (trace s ++ evs)%list /\
    init_events fuel (init_driver_loop bk fuel attempt s).1 evs.
Proof.
  revert attempt s. induction fuel as [| fuel IH]; intros attempt s; simpl.
  - exists []. rewrite app_nil_r. split; [done | constructor].
  - unfold try_except, init_attempt, bind, webdriver_Chrome.
    destruct (chrome bk (browser s)) as [[d | e] b']; simpl.
    + eexists. rewrite <- app_assoc. split; [reflexivity | constructor].
    + destruct (is_WebDriverException e) eqn:He; simpl.
      * match goal with |- context [init_driver_loop bk fuel ?a ?s0] =>
          destruct (IH a s0) as (evs & Ht & Hev) end.
        exists (EvChrome (Raise e) :: EvLog ERROR
                  ("WebDriver initialization attempt " ++ pretty (S attempt)
                   ++ " failed. Retrying... (" ++ str_exn e ++ ")")
                :: EvSleep 2 :: evs).
        split; [| by apply ie_retried].
        rewrite Ht. simpl. by rewrite <- !app_assoc.
      * eexists. split; [reflexivity |]. by constructor.
Qed.

Lemma init_events_attempts n r evs : init_events n r evs -> (attempts evs <= n)%nat.
Proof. induction 1; unfold attempts in *; cbn in *; lia. Qed.


Lemma init_events_sessions n r evs :
  init_events n r evs ->
  opened evs = match r with Ok d => [d] | Raise _ => [] end /\ closed evs = [].
Proof. induction 1; unfold opened, closed in *; cbn in *; done. Qed.


(** *** The whole fetch *)

Lemma fetch_steps_quiet driver image_url :
  appends_quiet (fetch_steps bk driver image_url).
Proof.
  unfold fetch_steps. quiet_step; [apply navigate_loop_quiet |].
  destruct a; simpl; [| quiet_step].
  quiet_step; [apply check_no_image_error_quiet |].
  destruct a; [quiet_step |].
  quiet_step; [apply click_loop_quiet |].
  destruct a; simpl; [| quiet_step]. apply extract_loop_quiet.
Qed.

Lemma fetch_steps_failed driver image_url s :
  fails_after_acquisition bk driver image_url s ->
  exists s', fetch_steps bk driver image_url s = (Ok None, s').
Proof.
  intros [e s1 H | s1 s2 H1 H2 | s1 s2 e s3 H1 H2 H3 | s1 s2 s3 e s4 H1 H2 H3 H4];
    unfold fetch_steps, bind.
  - destruct (navigate_to_lens_failed _ _ _ _ _ H) as [s2 ->]. simpl. eauto.
  - rewrite H1. simpl. rewrite H2. unfold ret. eauto.
  - rewrite H1. simpl. rewrite H2.
    destruct (wait_and_click_failed _ _ _ _ H3) as [s4 ->]. simpl. eauto.
  - rewrite H1. simpl. rewrite H2, H3. simpl. apply (extract_failed _ _ _ _ H4).
Qed.

Lemma fetch_steps_some driver image_url s md s' :
  fetch_steps bk driver image_url s = (Ok (Some md), s') ->
  exists title source link, md = metadata_dict title source link.
Proof.
  unfold fetch_steps, bind, ret. intros H.
  destruct (navigate_to_lens bk driver image_url 60 1 s) as [[[] | ?] ?];
    simpl in H; simplify_eq.
  destruct (check_no_image_error bk driver _) as [[[] | ?] ?]; simplify_eq.
  destruct (wait_and_click_find_image_source bk driver 1 _) as [[[] | ?] ?];
    simpl in H; simplify_eq.
  by apply extract_loop_some in H.
Qed.

(** The session is acquired outside the [try]; its release is the
    [finally] clause. *)
Lemma get_first_image_metadata_acquired image_url s driver s1 :
  init_driver bk 3 s = (Ok driver, s1) ->
  get_first_image_metadata bk image_url s =
    ((fetch_steps bk driver image_url s1).1,
     mkSt (quit bk driver (browser (fetch_steps bk driver image_url s1).2))
          (trace (fetch_steps bk driver image_url s1).2 ++ [EvQuit driver])).
Proof.
  intros H. unfold get_first_image_metadata, bind, try_finally, driver_quit.
  rewrite H. by destruct (fetch_steps bk driver image_url s1).
Qed.

Lemma get_first_image_metadata_not_acquired image_url s e s1 :
  init_driver bk 3 s = (Raise e, s1) ->
  get_first_image_metadata bk image_url s = (Raise e, s1).
Proof. intros H. unfold get_first_image_metadata, bind. by rewrite H. Qed.

Lemma get_first_image_metadata_some image_url s md s' :
  get_first_image_metadata bk image_url s = (Ok (Some md), s') ->
  exists title source link, md = metadata_dict title source link.
Proof.
  intros H. destruct (init_driver bk 3 s) as [[d | e] s1] eqn:Hi.
  - rewrite (get_first_image_metadata_acquired _ _ _ _ Hi) in H.
    destruct (fetch_steps bk d image_url s1) as [r s2] eqn:Hf. simpl in H.
    simplify_eq. by apply fetch_steps_some in Hf.
  - rewrite (get_first_image_metadata_not_acquired _ _ _ _ Hi) in H. done.
Qed.

(** *** Building the row *)

Lemma metadata_dict_truthy title source link :
  dict_truthy (metadata_dict title source link) = true.
Proof.
  unfold dict_truthy, metadata_dict. rewrite bool_decide_eq_false_2; [done |].
  apply insert_non_empty.
Qed.

Lemma output_row_truthy image_id image_url md :
  dict_truthy (output_row image_id image_url md) = true.
Proof.
  unfold dict_truthy, output_row. rewrite bool_decide_eq_false_2; [done |].
  apply insert_non_empty.
Qed.

Lemma process_image_none image_id image_url csv s s1 :
  get_first_image_metadata bk image_url s = (Ok None, s1) ->
  process_image bk image_id image_url csv s =
    (Ok None, mkSt (browser s1)
                   (trace s1 ++ [EvLog ERROR ("No data for image " ++ image_id ++ ".")])).
Proof. intros H. unfold process_image, bind. by rewrite H. Qed.

Lemma process_image_some image_id image_url csv s md s1 :
  get_first_image_metadata bk image_url s = (Ok (Some md), s1) ->
  process_image bk image_id image_url csv s =
    (Ok (Some (output_row image_id image_url md)), s1).
Proof.
  intros H. unfold process_image, bind. rewrite H.
  destruct (get_first_image_metadata_some _ _ _ _ H) as (t & so & l & ->).
  unfold falsy_data. by rewrite metadata_dict_truthy.
Qed.

Lemma process_image_inv image_id image_url csv s row s1 :
  process_image bk image_id image_url csv s = (Ok (Some row), s1) ->
  exists md, get_first_image_metadata bk image_url s = (Ok (Some md), s1) /\
    row = output_row image_id image_url md.
Proof.
  intros H.
  destruct (get_first_image_metadata bk image_url s) as [[[md |] | e] s2] eqn:Hg.
  - rewrite (process_image_some _ _ _ _ _ _ Hg) in H. simplify_eq. eauto.
  - rewrite (process_image_none _ _ _ _ _ Hg) in H. done.
  - unfold process_image, bind in H. rewrite Hg in H. done.
Qed.

End FetchFacts.

(** ** The coordinator *)

Section CollectFacts.

Lemma collect_returns completed all_data :
  Forall sound_future completed ->
  Forall (fun f => raises f = false) completed ->
  collect completed all_data = Ok (all_data ++ omap row_of completed)%list.
Proof.
  revert all_data. induction completed as [| f rest IH]; intros all_data Hs Hr; simpl.
  - by rewrite app_nil_r.
  - inversion Hs as [| ? ? Hf Hs']. inversion Hr as [| ? ? Hf' Hr']. subst.
    destruct f as [[row |] | e]; simpl in *; [| by apply IH | done].
    rewrite (Hf row eq_refl), IH by done. cbn. by rewrite <- app_assoc.
Qed.


Lemma collect_returned completed all_data rows :
  collect completed all_data = Ok rows ->
  Forall (fun f => raises f = false) completed.
Proof.
  revert all_data. induction completed as [| f rest IH]; intros all_data; simpl; [done |].
  destruct f as [[row |] | e']; intros H; [| |done].
  - constructor; [done |]. destruct (dict_truthy row); by apply IH in H.
  - constructor; [done |]. by apply IH in H.
Qed.

End CollectFacts.

Section BatchFacts.

Context {B : Type} (bk : Backend B) (world : string -> string -> B).

Lemma elem_of_submit_all urls_data csv f :
  f ∈ submit_all bk world urls_data csv <->
  exists image_id image_url, urls_data !! image_id = Some image_url /\
    f = (run_task bk world image_id image_url csv).1.
Proof.
  unfold submit_all. rewrite list_elem_of_fmap. split.
  - intros ([k v] & -> & Hin). apply elem_of_map_to_list in Hin. eauto.
  - intros (k & v & Hl & ->). exists (k, v). split; [done |].
    by apply elem_of_map_to_list.
Qed.

Lemma run_task_sound image_id image_url csv :
  sound_future (run_task bk world image_id image_url csv).1.
Proof.
  intros row H. unfold run_task in H.
  destruct (process_image bk image_id image_url csv _) as [r s1] eqn:Hp.
  simpl in H. subst r. destruct (process_image_inv _ _ _ _ _ _ _ Hp) as (md & _ & ->).
  apply output_row_truthy.
Qed.

Lemma submit_all_sound urls_data csv :
  Forall sound_future (submit_all bk world urls_data csv).
Proof.
  apply Forall_forall. intros f (k & v & _ & ->)%elem_of_submit_all.
  apply run_task_sound.
Qed.

Lemma fetches_tasks urls_data csv max_workers :
  fetches bk world urls_data csv max_workers =
  (fun item => (run_task bk world item.1 item.2 csv).1) <$> tasks urls_data max_workers.
Proof. unfold fetches, tasks, submit_all. by destruct (max_workers <=? 0). Qed.

(** *** The file system *)

Lemma lookup_files (sys : Sys) path :
  files sys !! path =
    match path_error path with
    | None => nodes sys !! path ≫= regular
    | Some _ => None
    end.
Proof.
  unfold files. rewrite map_lookup_imap.
  destruct (nodes sys !! path); simpl; [done |]. by destruct (path_error path).
Qed.


Lemma sys_open_raises path mode (sys : Sys) e :
  (sys_open path mode sys).1 = Raise e ->
  sys_open path mode sys = (Raise e, sys) /\ files sys !! path = None.
Proof.
  unfold sys_open. rewrite lookup_files.
  destruct (path_error path) as [e' |]; simpl.
  - intros H. by simplify_eq.
  - destruct (nodes sys !! path) as [[c | e'] |]; simpl; intros H; by simplify_eq.
Qed.

Lemma sys_open_returns path mode (sys : Sys) :
  (sys_open path mode sys).1 = Ok tt ->
  path_error path = None /\
  sys_open path mode sys =
    (Ok tt,
     mkSys (<[path := Regular (match mode with
                               | ModeW => []
                               | ModeA => content path sys
                               end)]> (nodes sys))
           (journal sys ++ [SysOpen path mode])).
Proof.
  unfold sys_open. destruct (path_error path) as [e' |]; simpl; [done |].
  destruct (nodes sys !! path) as [[c | e'] |]; simpl; done.
Qed.

Lemma sys_open_cases path mode (sys : Sys) :
  (sys_open path mode sys).1 = Ok tt \/ exists e, (sys_open path mode sys).1 = Raise e.
Proof. destruct (sys_open path mode sys).1 as [[] | e]; eauto. Qed.

Lemma data_rows_sink_after csv (sys : Sys) written tail :
  path_error csv = None ->
  files (sink_after csv sys written tail) !! csv = Some (fieldnames :: written) /\
  data_rows csv (sink_after csv sys written tail) = written.
Proof.
  intros Hp. unfold data_rows, sink_after, File. rewrite lookup_files. simpl.
  by rewrite Hp, lookup_insert_eq.
Qed.

(** *** Writing lines *)

Lemma write_lines_prefix lines : (write_lines lines).2 `prefix_of` lines.
Proof.
  induction lines as [| line rest IH]; simpl; [done |].
  destruct (encodable_line line); [| apply prefix_nil].
  destruct (write_lines rest) as [r written]. simpl in *. by apply prefix_cons.
Qed.

Lemma write_lines_all lines : all_encodable lines -> write_lines lines = (Ok tt, lines).
Proof.
  induction 1 as [| line rest Hl _ IH]; simpl; [done |]. by rewrite Hl, IH.
Qed.

Lemma write_lines_returns lines :
  (write_lines lines).1 = Ok tt -> all_encodable lines.
Proof.
  induction lines as [| line rest IH]; simpl; [constructor |].
  destruct (encodable_line line) eqn:Hl; [| done].
  destruct (write_lines rest) as [r written]. simpl in *. intros ->.
  constructor; [done | by apply IH].
Qed.


Lemma lines_of_perm fs fs' : fs ≡ₚ fs' -> lines_of fs ≡ₚ lines_of fs'.
Proof. intros H. unfold lines_of. by rewrite H. Qed.

(** *** The ways a run ends *)

Variable sched : Scheduler.

(** A run that cannot open the output file stops there. *)
Lemma main_not_opened urls_data csv max_workers (sys : Sys) e :
  (sys_open csv ModeW sys).1 = Raise e ->
  main bk world sched urls_data csv max_workers sys = (Raise e, sys) /\
  data_rows csv sys = [].
Proof.
  intros H. apply sys_open_raises in H as [Ho Hf]. split.
  - unfold main. by rewrite Ho.
  - unfold data_rows, File in *. by rewrite Hf.
Qed.

(** A run that opens the output file. *)
Lemma main_opened urls_data csv max_workers (sys : Sys) :
  sink_opens csv sys ->
  main bk world sched urls_data csv max_workers sys =
    if max_workers <=? 0 then
      (Raise (Exn ValueError "max_workers must be greater than 0"),
       sink_after csv sys [] [])
    else
      match collect (as_completed sched max_workers
                       (submit_all bk world urls_data csv)) [] with
      | Raise e => (Raise e, sink_after csv sys [] [])
      | Ok all_data =>
          ((write_lines (dict_to_list <$> all_data)).1,
           sink_after csv sys (write_lines (dict_to_list <$> all_data)).2
             (append_journal csv
                (length (write_lines (dict_to_list <$> all_data)).2)
                (negb (raises (write_lines (dict_to_list <$> all_data)).1))))
      end.
Proof.
  intros Ho. apply sys_open_returns in Ho as [Hp Ho]. unfold main. rewrite Ho.
  unfold writeheader. change (write_lines [fieldnames]) with (Ok tt, [fieldnames]).
  unfold sys_write, content. simpl. rewrite lookup_insert_eq, insert_insert_eq. simpl.
  unfold process_images_concurrently, sink_after.
  destruct (max_workers <=? 0); [by rewrite <- app_assoc |].
  destruct (collect _ []) as [all_data | e]; [| by rewrite <- app_assoc].
  unfold sys_open. rewrite Hp. simpl. rewrite lookup_insert_eq. simpl.
  unfold writerows, content. simpl. rewrite lookup_insert_eq, insert_insert_eq. simpl.
  destruct (write_lines (dict_to_list <$> all_data)) as [[[] | e] written]; simpl;
    unfold sys_write, content, append_journal; simpl;
    rewrite lookup_insert_eq, insert_insert_eq; simpl;
    by rewrite <- !app_assoc.
Qed.

(** What a run collects when no task raises. *)
Lemma collect_submitted urls_data csv max_workers :
  Forall (fun f => raises f = false) (submit_all bk world urls_data csv) ->
  collect (as_completed sched max_workers (submit_all bk world urls_data csv)) []
    = Ok (omap row_of (as_completed sched max_workers
                         (submit_all bk world urls_data csv))).
Proof.
  intros Hr. rewrite collect_returns; [done | |].
  - rewrite as_completed_perm. apply submit_all_sound.
  - by rewrite as_completed_perm.
Qed.

Lemma collect_raised urls_data csv max_workers :
  Exists (fun f => raises f = true) (submit_all bk world urls_data csv) ->
  exists e,
    collect (as_completed sched max_workers (submit_all bk world urls_data csv)) []
      = Raise e.
Proof.
  intros Hex. destruct (collect _ []) as [rows | e] eqn:Hc; [| eauto].
  apply collect_returned in Hc. rewrite as_completed_perm in Hc.
  apply Exists_exists in Hex as (f & Hin & Hf).
  rewrite Forall_forall in Hc. specialize (Hc f Hin). congruence.
Qed.

Lemma main_returns urls_data csv max_workers (sys : Sys) :
  sink_opens csv sys ->
  0 < max_workers ->
  Forall (fun f => raises f = false) (submit_all bk world urls_data csv) ->
  all_encodable (lines_of (submit_all bk world urls_data csv)) ->
  main bk world sched urls_data csv max_workers sys =
    (Ok tt,
     sink_after csv sys
       (lines_of (as_completed sched max_workers (submit_all bk world urls_data csv)))
       (append_journal csv
          (length (lines_of (as_completed sched max_workers
                               (submit_all bk world urls_data csv))))
          true)).
Proof.
  intros Ho Hw Hr He. rewrite (main_opened _ _ _ _ Ho).
  destruct (Z.leb_spec max_workers 0) as [? | _]; [lia |].
  rewrite (collect_submitted _ _ _ Hr). fold (lines_of (as_completed sched max_workers
    (submit_all bk world urls_data csv))).
  rewrite write_lines_all; [done |].
  unfold all_encodable in *.
  by rewrite (lines_of_perm _ _ (as_completed_perm sched max_workers _)).
Qed.

Lemma main_aborts urls_data csv max_workers (sys : Sys) :
  sink_opens csv sys ->
  max_workers <= 0 \/ Exists (fun f => raises f = true) (submit_all bk world urls_data csv) ->
  exists e,
    main bk world sched urls_data csv max_workers sys =
      (Raise e, sink_after csv sys [] []).
Proof.
  intros Ho H. rewrite (main_opened _ _ _ _ Ho).
  destruct (Z.leb_spec max_workers 0) as [? | Hpos]; [eauto |].
  destruct H as [? | Hex]; [lia |].
  destruct (collect_raised urls_data csv max_workers Hex) as [e ->]. eauto.
Qed.

(** Every run ends in one of the two ways. *)
Lemma main_cases (urls_data : gmap string string) (csv : string) (max_workers : Z) :
  (0 < max_workers /\
   Forall (fun f => raises f = false) (submit_all bk world urls_data csv)) \/
  (max_workers <= 0 \/
   Exists (fun f => raises f = true) (submit_all bk world urls_data csv)).
Proof.
  destruct (Z.leb_spec max_workers 0) as [? | Hw]; [auto |].
  destruct (decide (Forall (fun f => raises f = false)
                      (submit_all bk world urls_data csv))) as [Hf | Hf]; [auto |].
  right. right. apply not_Forall_Exists in Hf; [| intros f; apply _].
  eapply Exists_impl; [exact Hf |]. intros f. simpl. by destruct (raises f).
Qed.

(** The data rows of the file after a run are the first rows of what the
    tasks returned, in the order of completion. *)
Lemma data_rows_prefix urls_data csv max_workers (sys : Sys) :
  data_rows csv (main bk world sched urls_data csv max_workers sys).2 `prefix_of`
    lines_of (as_completed sched max_workers (submit_all bk world urls_data csv)).
Proof.
  destruct (sys_open_cases csv ModeW sys) as [Ho | [e Ho]].
  - pose proof (sys_open_returns _ _ _ Ho) as [Hp _].
    rewrite (main_opened _ _ _ _ Ho).
    destruct (max_workers <=? 0); simpl.
    { rewrite (proj2 (data_rows_sink_after _ _ _ _ Hp)). apply prefix_nil. }
    destruct (collect _ []) as [all_data | e] eqn:Hc; simpl.
    2: { rewrite (proj2 (data_rows_sink_after _ _ _ _ Hp)). apply prefix_nil. }
    rewrite (proj2 (data_rows_sink_after _ _ _ _ Hp)).
    pose proof (collect_returned _ _ _ Hc) as Hr. rewrite as_completed_perm in Hr.
    rewrite (collect_submitted _ _ _ Hr) in Hc. simplify_eq.
    apply write_lines_prefix.
  - destruct (main_not_opened urls_data csv max_workers sys e Ho) as [Hm Hd].
    rewrite Hm. simpl. rewrite Hd. apply prefix_nil.
Qed.

Lemma data_rows_returns urls_data csv max_workers (sys : Sys) :
  sink_opens csv sys ->
  0 < max_workers ->
  Forall (fun f => raises f = false) (submit_all bk world urls_data csv) ->
  all_encodable (lines_of (submit_all bk world urls_data csv)) ->
  data_rows csv (main bk world sched urls_data csv max_workers sys).2 =
    lines_of (as_completed sched max_workers (submit_all bk world urls_data csv)).
Proof.
  intros Ho Hw Hr He. rewrite main_returns by done.
  apply data_rows_sink_after. by apply sys_open_returns in Ho as [? _].
Qed.

Lemma data_rows_aborts urls_data csv max_workers (sys : Sys) :
  max_workers <= 0 \/ Exists (fun f => raises f = true) (submit_all bk world urls_data csv) ->
  data_rows csv (main bk world sched urls_data csv max_workers sys).2 = [].
Proof.
  intros H. destruct (sys_open_cases csv ModeW sys) as [Ho | [e Ho]].
  - destruct (main_aborts urls_data csv max_workers sys Ho H) as [e ->].
    apply data_rows_sink_after. by apply sys_open_returns in Ho as [? _].
  - destruct (main_not_opened urls_data csv max_workers sys e Ho) as [Hm Hd].
    rewrite Hm. simpl. by rewrite Hd.
Qed.

End BatchFacts.

(** ** Rows of the output file *)

Lemma dict_to_list_output_row image_id image_url md :
  dict_to_list (output_row image_id image_url md) =
    [image_id; image_url;
     csv_cell (dict_get md "position" (PStr "N/A"));
     csv_cell (dict_get md "title" (PStr "N/A"));
     csv_cell (dict_get md "source" (PStr "N/A"));
     csv_cell (dict_get md "link" (PStr "N/A"))].
Proof.
  unfold dict_to_list, fieldnames, output_row. cbn [fmap list_fmap].
  unfold dict_get at 1 3 5 7 9 11. by simplify_map_eq.
Qed.

Lemma omap_row_of_fmap {A} (h : A -> Future) (l : list A) :
  omap (fun x => dict_to_list <$> row_of (h x)) l = lines_of (h <$> l).
Proof.
  unfold lines_of. induction l as [| x l IH]; [done |]. cbn.
  destruct (row_of (h x)); cbn; by rewrite IH.
Qed.

Lemma length_lines_of (fs : list Future) :
  length (lines_of fs) = length (filter (fun f => returned_data f = true) fs).
Proof.
  unfold lines_of. rewrite length_fmap. induction fs as [| f fs IH]; [done |].
  rewrite filter_cons. destruct f as [[row |] | e]; cbn; by rewrite ?IH.
Qed.

Lemma length_lines_of_le (fs : list Future) : (length (lines_of fs) <= length fs)%nat.
Proof. rewrite length_lines_of. apply length_filter. Qed.

(** C1, as stated, fails on a run that aborts: of the two records of
    [urls_ac], the fetch of "a" returns a record and the fetch of "c" raises
    because the browser never starts; the run aborts and the file holds no
    data row, while one fetch returned a record. *)
Lemma aborted_run_drops_returned_fetches :
  ~ rows_match_returned_fetches Static.selenium Static.world Static.in_order
      urls_ac "out.csv" 5 Static.sys0.
Proof. unfold rows_match_returned_fetches. vm_compute. intros [_ H]. discriminate H. Qed.

(** C1 (amended): in a run none of whose fetches raises and whose sink
    accepts the rows (the output file can be opened and every cell of the
    returned rows can be encoded in UTF-8), the data rows of the output file
    are, up to order, the rows of the input records whose fetch returned a
    record, one row for each such record and none for the others; their
    number is the number of fetches that returned a record, and at most the
    size of the input mapping. *)
Theorem rows_are_the_returned_fetches {B} (bk : Backend B) world sched
    (urls_data : gmap string string) (csv : string) (max_workers : Z) (sys : Sys) :
  (forall f, f ∈ fetches bk world urls_data csv max_workers -> raises f = false) ->
  sink_opens csv sys ->
  all_encodable (lines_of (fetches bk world urls_data csv max_workers)) ->
  data_rows csv (main bk world sched urls_data csv max_workers sys).2 ≡ₚ
    omap (fun item => dict_to_list <$> row_of (run_task bk world item.1 item.2 csv).1)
         (tasks urls_data max_workers) /\
  NoDup (tasks urls_data max_workers).*1 /\
  rows_match_returned_fetches bk world sched urls_data csv max_workers sys.
Proof.
  intros Hr Ho He. unfold rows_match_returned_fetches. rewrite omap_row_of_fmap.
  rewrite <- fetches_tasks. unfold fetches, tasks in *.
  destruct (Z.leb_spec max_workers 0) as [Hw | Hw].
  - rewrite data_rows_aborts by auto. simpl. repeat split; try done; [constructor | lia].
  - apply Forall_forall in Hr. rewrite data_rows_returns by done.
    split; [apply lines_of_perm, as_completed_perm |].
    split; [apply NoDup_fst_map_to_list |].
    rewrite (lines_of_perm _ _ (as_completed_perm sched max_workers _)).
    split; [| apply length_lines_of].
    etrans; [apply length_lines_of_le |].
    unfold submit_all. by rewrite length_fmap, length_map_to_list.
Qed.

Lemma rows_are_the_returned_fetches_witness :
  data_rows "out.csv"
    (main Static.selenium Static.world Static.reversed urls_ab "out.csv" 5 Static.sys0).2 ≡ₚ
    [["a"; "http://x/1.png"; "1"; "A cat"; "example.org"; "http://example.org/cat"]] /\
  rows_match_returned_fetches Static.selenium Static.world Static.reversed
    urls_ab "out.csv" 5 Static.sys0.
Proof.
  assert (H : forall f, f ∈ fetches Static.selenium Static.world urls_ab "out.csv" 5 ->
                        raises f = false).
  { apply Forall_forall. vm_compute. repeat constructor. }
  assert (Ho : sink_opens "out.csv" Static.sys0) by (vm_compute; reflexivity).
  assert (He : all_encodable
                 (lines_of (fetches Static.selenium Static.world urls_ab "out.csv" 5))).
  { vm_compute. repeat constructor. }
  destruct (rows_are_the_returned_fetches Static.selenium Static.world Static.reversed
              urls_ab "out.csv" 5 Static.sys0 H Ho He) as (Hp & _ & Hm).
  split; [| exact Hm]. etrans; [exact Hp |]. vm_compute. reflexivity.
Defined.

(** Where a data row comes from. *)
Lemma data_rows_origin {B} (bk : Backend B) world sched
    (urls_data : gmap string string) (csv : string) (max_workers : Z) (sys : Sys)
    (line : list string) :
  line ∈ data_rows csv (main bk world sched urls_data csv max_workers sys).2 ->
  exists image_id image_url row,
    urls_data !! image_id = Some image_url /\
    (run_task bk world image_id image_url csv).1 = Ok (Some row) /\
    row !! "id" = Some (PStr image_id) /\ row !! "url" = Some (PStr image_url) /\
    line = dict_to_list row /\
    line !! 0%nat = Some image_id /\ line !! 1%nat = Some image_url.
Proof.
  intros Hin.
  pose proof (elem_of_prefix _ _ _ Hin
                (data_rows_prefix bk world sched urls_data csv max_workers sys)) as Hall.
  clear Hin. rename Hall into Hin. unfold lines_of in Hin.
  apply list_elem_of_fmap in Hin as (row & -> & Hrow).
  apply list_elem_of_omap in Hrow as (f & Hf & Hrow).
  rewrite as_completed_perm in Hf.
  apply elem_of_submit_all in Hf as (k & v & Hkv & ->).
  exists k, v, row. split; [done |].
  destruct (run_task bk world k v csv) as [r s1] eqn:Ht. simpl in *.
  destruct r as [[row' |] | e]; simplify_eq.
  unfold run_task in Ht. apply process_image_inv in Ht as (md & _ & ->).
  simpl in Hrow. simplify_eq. rewrite dict_to_list_output_row.
  unfold output_row. by simplify_map_eq.
Qed.

(** C6: every data row of the output file carries, in its [id] and [url]
    columns, the identifier and the URL of an input record, the one whose
    task returned the row; this holds for every pool size and every order
    of completion. *)
Theorem rows_carry_their_input_record {B} (bk : Backend B) world sched
    (urls_data : gmap string string) (csv : string) (max_workers : Z) (sys : Sys)
    (line : list string) :
  line ∈ data_rows csv (main bk world sched urls_data csv max_workers sys).2 ->
  exists image_id image_url row,
    urls_data !! image_id = Some image_url /\
    (run_task bk world image_id image_url csv).1 = Ok (Some row) /\
    row !! "id" = Some (PStr image_id) /\ row !! "url" = Some (PStr image_url) /\
    line = dict_to_list row /\
    line !! 0%nat = Some image_id /\ line !! 1%nat = Some image_url.
Proof. apply data_rows_origin. Qed.

Lemma rows_carry_their_input_record_witness :
  exists row,
    (run_task Static.selenium Static.world "a" "http://x/1.png" "out.csv").1 = Ok (Some row) /\
    ["a"; "http://x/1.png"; "1"; "A cat"; "example.org"; "http://example.org/cat"]
      = dict_to_list row.
Proof.
  assert (H : ["a"; "http://x/1.png"; "1"; "A cat"; "example.org"; "http://example.org/cat"]
              ∈ data_rows "out.csv"
                  (main Static.selenium Static.world Static.reversed urls_ab "out.csv" 50
                     Static.sys0).2).
  { vm_compute. constructor. }
  destruct (rows_carry_their_input_record Static.selenium Static.world Static.reversed
              urls_ab "out.csv" 50 Static.sys0 _ H)
    as (k & v & row & Hkv & Hrow & _ & _ & Hline & Hk & Hv).
  simpl in Hk, Hv. simplify_eq. eauto.
Defined.

(** C8, as stated, fails on the code: the two records of [urls_surrogate]
    have a match each, and the identifier of one is a lone surrogate, which
    the output file cannot encode.  The append stops at that row, so the
    rows left in the file depend on the order of completion: one order
    leaves the row of "a", the other leaves none. *)
Lemma unencodable_row_breaks_invariance :
  ~ (data_rows "out.csv"
       (main Static.selenium Static.world Static.in_order urls_surrogate "out.csv" 1
          Static.sys0).2 ≡ₚ
     data_rows "out.csv"
       (main Static.selenium Static.world Static.reversed urls_surrogate "out.csv" 50
          Static.sys0).2).
Proof. intros H. apply Permutation_length in H. vm_compute in H. discriminate H. Qed.

(** C8 (amended): for a fixed collaborator whose returned rows can all be
    encoded in UTF-8, two runs over the same input with any two positive
    pool sizes and any two orders of completion, each on a file system where
    the output file can be opened, write the same data rows, up to their
    order. *)
Theorem rows_do_not_depend_on_pool_size {B} (bk : Backend B) world sched1 sched2
    (urls_data : gmap string string) (csv : string) (workers1 workers2 : Z)
    (sys1 sys2 : Sys) :
  0 < workers1 -> 0 < workers2 ->
  sink_opens csv sys1 -> sink_opens csv sys2 ->
  all_encodable (lines_of (submit_all bk world urls_data csv)) ->
  data_rows csv (main bk world sched1 urls_data csv workers1 sys1).2 ≡ₚ
  data_rows csv (main bk world sched2 urls_data csv workers2 sys2).2.
Proof.
  intros H1 H2 Ho1 Ho2 He.
  destruct (main_cases bk world urls_data csv workers1) as [[_ Hr] | [? | Hex]]; [| lia |].
  - rewrite !data_rows_returns by done.
    apply lines_of_perm. by rewrite !as_completed_perm.
  - by rewrite !data_rows_aborts by auto.
Qed.

Lemma rows_do_not_depend_on_pool_size_witness :
  data_rows "out.csv"
    (main Static.selenium Static.world Static.in_order urls_ah "out.csv" 1 Static.sys0).2 ≡ₚ
  data_rows "out.csv"
    (main Static.selenium Static.world Static.reversed urls_ah "out.csv" 50 Static.sys0).2.
Proof.
  apply (rows_do_not_depend_on_pool_size Static.selenium Static.world
           Static.in_order Static.reversed urls_ah "out.csv" 1 50);
    [lia | lia | vm_compute; reflexivity | vm_compute; reflexivity |].
  vm_compute. repeat constructor.
Defined.






(** ** Sessions *)

Lemma opened_app evs evs' : opened (evs ++ evs') = (opened evs ++ opened evs')%list.
Proof. apply omap_app. Qed.

Lemma closed_app evs evs' : closed (evs ++ evs') = (closed evs ++ closed evs')%list.
Proof. apply omap_app. Qed.

Lemma quiet_sessions evs : Forall quiet evs -> opened evs = [] /\ closed evs = [].
Proof.
  induction 1 as [| ev evs Hq _ [IHo IHc]]; [done |].
  unfold opened, closed in *. destruct ev; cbn; done.
Qed.

(** A fetch that acquires a session: its events are those of the
    acquisition, quiet events, and the release of the session. *)
Lemma get_first_image_metadata_sessions {B} (bk : Backend B) image_url (s : St B)
    driver s1 :
  init_driver bk 3 s = (Ok driver, s1) ->
  exists evs,
    since s (get_first_image_metadata bk image_url s).2 = (evs ++ [EvQuit driver])%list /\
    trace (get_first_image_metadata bk image_url s).2
      = (trace s ++ evs ++ [EvQuit driver])%list /\
    opened evs = [driver] /\ closed evs = [].
Proof.
  intros Hi. rewrite (get_first_image_metadata_acquired bk _ _ _ _ Hi). simpl.
  destruct (init_driver_loop_events bk 3 0 s) as (evs0 & Ht0 & Hev0).
  unfold init_driver in Hi. rewrite Hi in Ht0, Hev0. simpl in Ht0, Hev0.
  apply init_events_sessions in Hev0 as [Ho0 Hc0].
  destruct (fetch_steps_quiet bk driver image_url s1) as (evs1 & Ht1 & Hq1).
  apply quiet_sessions in Hq1 as [Ho1 Hc1].
  exists (evs0 ++ evs1)%list.
  assert (Ht : (trace (fetch_steps bk driver image_url s1).2 ++ [EvQuit driver])%list
               = (trace s ++ (evs0 ++ evs1) ++ [EvQuit driver])%list).
  { rewrite Ht1, Ht0. by rewrite <- !app_assoc. }
  split; [by apply since_app |]. split; [done |].
  rewrite opened_app, closed_app, Ho0, Ho1, Hc0, Hc1. done.
Qed.



(** ** Session acquisition *)





(** ** Failures of one item *)

Lemma run_task_failed {B} (bk : Backend B) world image_id image_url csv driver s1 :
  init_driver bk 3 (mkSt (world image_id image_url) []) = (Ok driver, s1) ->
  fails_after_acquisition bk driver image_url s1 ->
  (get_first_image_metadata bk image_url (mkSt (world image_id image_url) [])).1 = Ok None /\
  exists s', run_task bk world image_id image_url csv = (Ok None, s') /\
    last (trace s') = Some (EvLog ERROR ("No data for image " ++ image_id ++ ".")) /\
    closed (trace s') = [driver].
Proof.
  intros Hi Hf.
  destruct (get_first_image_metadata_sessions bk image_url _ _ _ Hi)
    as (evs & _ & Ht & _ & Hc).
  destruct (fetch_steps_failed bk _ _ _ Hf) as [s2 Hs].
  pose proof (get_first_image_metadata_acquired bk image_url _ _ _ Hi) as Hg.
  rewrite Hs in Hg. simpl in Hg. rewrite Hg in Ht |- *. split; [done |].
  unfold run_task. rewrite (process_image_none bk _ _ _ _ _ Hg).
  eexists. split; [reflexivity |]. simpl. rewrite last_snoc. split; [done |].
  simpl in Ht. rewrite Ht, !closed_app, Hc. done.
Qed.

(** The failures the steps catch.  An item whose fetch, once it holds a
    session, fails at navigation, finds the no-match element, fails at the
    action or fails at extraction: its fetch returns the absent result, its
    task logs "No data for image <id>." after closing the session and
    returns nothing; in a run none of whose tasks raises and whose sink
    accepts the rows, the run completes, no data row carries the identifier
    of the item, and every item whose task returned a row has that row in
    the output file. *)
Lemma caught_failure_drops_the_item {B} (bk : Backend B) world sched
    (urls_data : gmap string string) (csv : string) (max_workers : Z) (sys : Sys)
    image_id image_url driver s1 :
  urls_data !! image_id = Some image_url ->
  init_driver bk 3 (mkSt (world image_id image_url) []) = (Ok driver, s1) ->
  fails_after_acquisition bk driver image_url s1 ->
  0 < max_workers ->
  Forall (fun f => raises f = false) (submit_all bk world urls_data csv) ->
  sink_opens csv sys ->
  all_encodable (lines_of (submit_all bk world urls_data csv)) ->
  (get_first_image_metadata bk image_url (mkSt (world image_id image_url) [])).1 = Ok None /\
  (exists s', run_task bk world image_id image_url csv = (Ok None, s') /\
     last (trace s') = Some (EvLog ERROR ("No data for image " ++ image_id ++ ".")) /\
     closed (trace s') = [driver]) /\
  (main bk world sched urls_data csv max_workers sys).1 = Ok tt /\
  (forall line, line ∈ data_rows csv (main bk world sched urls_data csv max_workers sys).2 ->
     line !! 0%nat <> Some image_id) /\
  (forall other url row, urls_data !! other = Some url ->
     (run_task bk world other url csv).1 = Ok (Some row) ->
     dict_to_list row ∈ data_rows csv (main bk world sched urls_data csv max_workers sys).2).
Proof.
  intros Hin Hi Hf Hw Hr Hopen Henc.
  destruct (run_task_failed bk world image_id image_url csv driver s1 Hi Hf)
    as (Hg & s' & Ht & Hl & Hc).
  split; [done |]. split; [eauto |].
  split; [by rewrite (main_returns bk world sched _ _ _ _ Hopen Hw Hr Henc) |]. split.
  - intros line Hline Hid.
    apply data_rows_origin in Hline as (k & v & row & Hkv & Hrow & _ & _ & _ & Hk & _).
    rewrite Hid in Hk. simplify_eq. by rewrite Ht in Hrow.
  - intros other url row Ho Hrow.
    rewrite (data_rows_returns bk world sched _ _ _ _ Hopen Hw Hr Henc). unfold lines_of.
    apply list_elem_of_fmap. exists row. split; [done |].
    apply list_elem_of_omap. exists (Ok (Some row)). split; [| done].
    rewrite as_completed_perm. apply elem_of_submit_all. exists other, url.
    by rewrite Hrow.
Qed.

(** The scenario of the specification: a match for "a", the no-match page
    for "b". *)
Example scenario_match_and_no_match :
  data_rows "out.csv"
    (main Static.selenium Static.world Static.reversed urls_ab "out.csv" 5 Static.sys0).2
  = [["a"; "http://x/1.png"; "1"; "A cat"; "example.org"; "http://example.org/cat"]].
Proof. vm_compute. reflexivity. Qed.

(** C4 fails on the code at the no-match detection: [check_no_image_error]
    catches [TimeoutException] only, while the other steps catch every
    [Exception].  When the wait for the no-match element raises another
    [WebDriverException] (here the session died after the page loaded), the
    exception leaves the fetch (which still closes the session) and the
    task, and the run aborts: the output file has no data row, not even for
    item "a", whose task returned a row. *)
Lemma uncaught_error_in_no_match_check_aborts_run :
  (wait_presence Static.selenium 0%nat XPATH no_image_xpath 10 Static.page_dead).1
    = Raise Static.invalid_session /\
  (get_first_image_metadata Static.selenium "http://x/7.png"
     (mkSt Static.page_dead [])).1 = Raise Static.invalid_session /\
  (run_task Static.selenium Static.world "g" "http://x/7.png" "out.csv").1
    = Raise Static.invalid_session /\
  closed (trace (run_task Static.selenium Static.world "g" "http://x/7.png" "out.csv").2)
    = [0%nat] /\
  returned_data (run_task Static.selenium Static.world "a" "http://x/1.png" "out.csv").1
    = true /\
  (main Static.selenium Static.world Static.in_order urls_ag "out.csv" 5 Static.sys0).1
    = Raise Static.invalid_session /\
  data_rows "out.csv"
    (main Static.selenium Static.world Static.in_order urls_ag "out.csv" 5 Static.sys0).2 = [].
Proof. vm_compute. repeat split. Qed.

(** ** The record a fetch returns *)

Lemma metadata_dict_keys title source link :
  metadata_dict title source link !! "position" = Some (PInt 1) /\
  metadata_dict title source link !! "title" = Some title /\
  metadata_dict title source link !! "source" = Some source /\
  metadata_dict title source link !! "link" = Some link.
Proof. unfold metadata_dict. by simplify_map_eq. Qed.

(** C10: a record returned by a fetch has exactly the keys [position],
    [title], [source] and [link], with [position] the integer 1; so reading
    a key with the default "N/A" gives the value stored under the key, and
    the row built from the record carries the values of the record: a
    field the page lacks is [None] under its key, never a missing key. *)
Theorem returned_record_has_all_keys {B} (bk : Backend B) image_url (s : St B) md s' :
  get_first_image_metadata bk image_url s = (Ok (Some md), s') ->
  md !! "position" = Some (PInt 1) /\
  dom md = list_to_set metadata_keys /\
  Forall (fun k => md !! k = Some (dict_get md k (PStr "N/A"))) metadata_keys /\
  forall image_id csv,
    process_image bk image_id image_url csv s
      = (Ok (Some (output_row image_id image_url md)), s') /\
    Forall (fun k => output_row image_id image_url md !! k = md !! k) metadata_keys.
Proof.
  intros H. pose proof (get_first_image_metadata_some bk _ _ _ _ H) as (t & so & l & ->).
  destruct (metadata_dict_keys t so l) as (Hp & Ht & Hs & Hl).
  split; [done |]. split.
  { unfold metadata_dict, metadata_keys. rewrite !dom_insert_L, dom_empty_L. set_solver. }
  split.
  { unfold metadata_keys, dict_get. repeat constructor; by simplify_option_eq. }
  intros image_id csv. split; [by apply process_image_some |].
  unfold metadata_keys, output_row, dict_get. rewrite Hp, Ht, Hs, Hl.
  repeat constructor; by simplify_map_eq.
Qed.

Lemma returned_record_has_all_keys_witness :
  exists md,
    md !! "position" = Some (PInt 1) /\ md !! "link" = Some PNone /\
    Forall (fun k => md !! k = Some (dict_get md k (PStr "N/A"))) metadata_keys.
Proof.
  exists (metadata_dict (PStr "A cat") (PStr "example.org") PNone).
  assert (H : get_first_image_metadata Static.selenium "http://x/5.png"
                (mkSt Static.page_no_href [])
              = (Ok (Some (metadata_dict (PStr "A cat") (PStr "example.org") PNone)),
                 (get_first_image_metadata Static.selenium "http://x/5.png"
                    (mkSt Static.page_no_href [])).2))
    by (vm_compute; reflexivity).
  destruct (returned_record_has_all_keys Static.selenium _ _ _ _ H) as (Hp & _ & Hk & _).
  split; [exact Hp |]. split; [| exact Hk]. vm_compute. reflexivity.
Defined.

(** ** Fields the page lacks *)

(** When the first entry renders and the look-up of its title raises, the
    one extraction attempt is used up and the extraction returns the absent
    result. *)
Lemma missing_title_fails_extraction {B} (bk : Backend B) driver (s : St B) el b1 e b2 :
  wait_presence bk driver CSS_SELECTOR "li.anSuc a.GZrdsf" 60 (browser s)
    = (Ok (Some el), b1) ->
  find_element bk el CSS_SELECTOR ".iJmjmd" b1 = (Raise e, b2) ->
  exists s', extract_first_image_metadata bk driver 1 s = (Ok None, s').
Proof.
  intros Hw Hf. eapply extract_failed.
  unfold extract_attempt, bind, call, text_if_found, py_find_element.
  rewrite Hw. simpl. unfold bind, call. simpl. rewrite Hf. reflexivity.
Qed.

(** A missing [href], on the contrary, does not fail the extraction: the
    record has [None] under [link]. *)
Lemma missing_href_is_an_absent_field :
  field_of (extract_first_image_metadata Static.selenium 0%nat 1
              (mkSt Static.page_no_href [])).1 "link" = Some PNone.
Proof. vm_compute. reflexivity. Qed.

(** C5 fails on the code for the title (and likewise the source): on a page
    whose first entry renders but has no title sub-element, Selenium's
    [find_element] raises, the exception is caught by the retry loop of the
    extraction, and the extraction, the fetch and the task return the absent
    result; the item has no row. *)
Lemma missing_title_fails_the_item :
  s_wait_entry_renders Static.page_no_title /\
  (find_element Static.selenium Static.el_entry CSS_SELECTOR ".iJmjmd"
     Static.page_no_title).1 = Raise Static.no_such_element /\
  (extract_first_image_metadata Static.selenium 0%nat 1
     (mkSt Static.page_no_title [])).1 = Ok None /\
  (get_first_image_metadata Static.selenium "http://x/4.png"
     (mkSt Static.page_no_title [])).1 = Ok None /\
  (run_task Static.selenium Static.world "d" "http://x/4.png" "out.csv").1 = Ok None /\
  (main Static.selenium Static.world Static.in_order urls_d "out.csv" 5 Static.sys0).1
    = Ok tt /\
  data_rows "out.csv"
    (main Static.selenium Static.world Static.in_order urls_d "out.csv" 5 Static.sys0).2 = [].
Proof. vm_compute. repeat split. Qed.

(** C2 fails on the code: the record always has its four keys, so the
    defaults "N/A" of [process_image] are never used.  With Selenium, an
    anchor without [href] gives [None] under [link], written as the empty
    string; with a stub whose look-up of a missing source label returns
    [None], the row has [None] under [source], written as the empty string
    as well. *)
Lemma missing_field_is_written_empty :
  field_of (run_task Static.selenium Static.world "e" "http://x/5.png" "out.csv").1 "link"
    = Some PNone /\
  data_rows "out.csv"
    (main Static.selenium Static.world Static.in_order urls_e "out.csv" 5 Static.sys0).2
    = [["e"; "http://x/5.png"; "1"; "A cat"; "example.org"; ""]] /\
  field_of (run_task Static.stub Static.world "f" "http://x/6.png" "out.csv").1 "source"
    = Some PNone /\
  data_rows "out.csv"
    (main Static.stub Static.world Static.in_order urls_f "out.csv" 5 Static.sys0).2
    = [["f"; "http://x/6.png"; "1"; "A cat"; ""; "http://example.org/cat"]].
Proof. vm_compute. repeat split. Qed.

(** * Further properties of the code *)

(** ** Events of the steps *)

Section StepEvents.

Context {B : Type} (bk : Backend B).

Lemma mute_ret {A} (a : A) : mute (ret (B:=B) a).
Proof. done. Qed.

Lemma mute_raise {A} e : mute (raise (B:=B) (A:=A) e).
Proof. done. Qed.

Lemma mute_call {A} (f : B -> res A * B) : mute (call f).
Proof. intros s. unfold call. by destruct (f (browser s)). Qed.

Lemma mute_bind {A C} (m : M B A) (k : A -> M B C) :
  mute m -> (forall a, mute (k a)) -> mute (bind m k).
Proof.
  intros Hm Hk s. unfold bind. specialize (Hm s).
  destruct (m s) as [[a | e] s1]; simpl in *; [| done].
  by rewrite Hk.
Qed.

Lemma logs_on_success_log {A} msg (a : A) :
  logs_on_success msg (bind (logging_info (B:=B) msg) (fun _ => ret a)).
Proof. done. Qed.

Lemma logs_on_success_bind {A C} msg (m : M B A) (k : A -> M B C) :
  mute m -> (forall a, logs_on_success msg (k a)) -> logs_on_success msg (bind m k).
Proof.
  intros Hm Hk s. unfold bind. specialize (Hm s).
  destruct (m s) as [[a | e] s1]; simpl in *; [| done].
  by rewrite Hk, Hm.
Qed.

Lemma mute_text_if_found element sel : mute (text_if_found bk element sel).
Proof.
  unfold text_if_found, py_find_element, py_text.
  apply mute_bind; [destruct element; [apply mute_call | apply mute_raise] |].
  intros [el |]; [| apply mute_ret].
  apply mute_bind; [destruct element; [apply mute_call | apply mute_raise] |].
  intros found. apply mute_bind; [| intros; apply mute_ret].
  destruct found; [apply mute_call | apply mute_raise].
Qed.

Lemma navigate_attempt_logs driver lens_url timeout :
  logs_on_success ("Successfully navigated to " ++ lens_url)
    (navigate_attempt bk driver lens_url timeout).
Proof.
  unfold navigate_attempt.
  apply logs_on_success_bind; [apply mute_call | intros _].
  apply logs_on_success_bind; [apply mute_call | intros _].
  apply logs_on_success_log.
Qed.

Lemma click_attempt_logs driver sel :
  logs_on_success "Clicked 'Find image source' button" (click_attempt bk driver sel).
Proof.
  unfold click_attempt, py_click.
  apply logs_on_success_bind; [apply mute_call | intros button].
  apply logs_on_success_bind; [destruct button; [apply mute_call | apply mute_raise] |].
  intros _. apply logs_on_success_log.
Qed.

Lemma extract_attempt_logs driver :
  logs_on_success "Successfully extracted metadata" (extract_attempt bk driver).
Proof.
  unfold extract_attempt, py_get_attribute.
  apply logs_on_success_bind; [apply mute_call | intros element].
  apply logs_on_success_bind; [apply mute_text_if_found | intros title].
  apply logs_on_success_bind; [apply mute_text_if_found | intros source].
  apply logs_on_success_bind; [destruct element; [apply mute_call | apply mute_raise] |].
  intros link. apply logs_on_success_log.
Qed.

Lemma extract_attempt_some driver s r s1 :
  extract_attempt bk driver s = (Ok r, s1) -> is_Some r.
Proof. intros H. apply extract_attempt_ok in H as (? & ? & ? & ->). eauto. Qed.

(** The three retry loops. *)
Lemma navigate_loop_events driver lens_url timeout retries fuel attempt s :
  exists b evs,
    (navigate_loop bk driver lens_url timeout retries fuel attempt s).1 = Ok b /\
    trace (navigate_loop bk driver lens_url timeout retries fuel attempt s).2
      = (trace s ++ evs)%list /\
    retry_events ("Successfully navigated to " ++ lens_url) fuel b evs.
Proof.
  revert attempt s. induction fuel as [| fuel IH]; intros attempt s; simpl.
  - exists false, []. rewrite app_nil_r. repeat split. constructor.
  - unfold try_except. pose proof (navigate_attempt_logs driver lens_url timeout s) as Hl.
    destruct (navigate_attempt bk driver lens_url timeout s) as [[[] | e] s1] eqn:Ha;
      simpl in Hl.
    + exists true. eexists. repeat split; [exact Hl | constructor].
    + exfalso. unfold navigate_attempt, bind, ret in Ha. repeat case_match; simplify_eq.
    + destruct (is_TimeoutException e);
        unfold bind, logging_error, time_sleep, emit; simpl;
        match goal with |- context [navigate_loop bk _ _ _ _ fuel ?a ?s0] =>
          destruct (IH a s0) as (b & evs & Hr & Ht & Hev) end;
        exists b; eexists (_ :: _ :: evs); (split; [exact Hr |]);
        (split; [rewrite Ht; simpl; rewrite Hl, <- !app_assoc; reflexivity |]);
        by constructor.
Qed.

Lemma click_loop_events driver sel retries fuel attempt s :
  exists b evs,
    (click_loop bk driver sel retries fuel attempt s).1 = Ok b /\
    trace (click_loop bk driver sel retries fuel attempt s).2 = (trace s ++ evs)%list /\
    retry_events "Clicked 'Find image source' button" fuel b evs.
Proof.
  revert attempt s. induction fuel as [| fuel IH]; intros attempt s; simpl.
  - exists false, []. rewrite app_nil_r. repeat split. constructor.
  - unfold try_except. pose proof (click_attempt_logs driver sel s) as Hl.
    destruct (click_attempt bk driver sel s) as [[[] | e] s1] eqn:Ha; simpl in Hl.
    + exists true. eexists. repeat split; [exact Hl | constructor].
    + exfalso. unfold click_attempt, bind, ret in Ha. repeat case_match; simplify_eq.
    + unfold bind, logging_error, time_sleep, emit; simpl.
      match goal with |- context [click_loop bk _ _ _ fuel ?a ?s0] =>
        destruct (IH a s0) as (b & evs & Hr & Ht & Hev) end.
      exists b; eexists (_ :: _ :: evs). split; [exact Hr |].
      split; [rewrite Ht; simpl; rewrite Hl, <- !app_assoc; reflexivity |].
      by constructor.
Qed.

Lemma extract_loop_events driver retries fuel attempt s :
  exists r evs,
    (extract_loop bk driver retries fuel attempt s).1 = Ok r /\
    trace (extract_loop bk driver retries fuel attempt s).2 = (trace s ++ evs)%list /\
    retry_events "Successfully extracted metadata" fuel (bool_decide (is_Some r)) evs.
Proof.
  revert attempt s. induction fuel as [| fuel IH]; intros attempt s; simpl.
  - exists None, []. rewrite app_nil_r. repeat split. constructor.
  - unfold try_except. pose proof (extract_attempt_logs driver s) as Hl.
    destruct (extract_attempt bk driver s) as [[r | e] s1] eqn:Ha; simpl in Hl.
    + exists r. eexists. split; [done |]. split; [exact Hl |].
      apply extract_attempt_some in Ha. rewrite bool_decide_eq_true_2 by done.
      constructor.
    + unfold bind, logging_error, time_sleep, emit; simpl.
      match goal with |- context [extract_loop bk _ _ fuel ?a ?s0] =>
        destruct (IH a s0) as (r & evs & Hr & Ht & Hev) end.
      exists r; eexists (_ :: _ :: evs). split; [exact Hr |].
      split; [rewrite Ht; simpl; rewrite Hl, <- !app_assoc; reflexivity |].
      by constructor.
Qed.

(** What the events of a retry loop say. *)
Lemma retry_events_sleeps ok_msg n b evs :
  retry_events ok_msg n b evs ->
  exists k : nat, sleeps evs = replicate k 2 /\
    (if b then k < n else k = n)%nat.
Proof.
  induction 1 as [| n | n msg b evs _ (k & Hs & Hk)].
  - by exists 0%nat.
  - exists 0%nat. split; [done | lia].
  - exists (S k). unfold sleeps in *. cbn. rewrite Hs. split; [done |].
    destruct b; lia.
Qed.

Lemma retry_events_once ok_msg b evs :
  retry_events ok_msg 1 b evs ->
  if b then evs = [EvLog INFO ok_msg]
  else exists msg, evs = [EvLog ERROR msg; EvSleep 2].
Proof.
  intros H. inversion H as [| | n msg b' evs' H']; subst; [done |].
  inversion H'; subst. eauto.
Qed.

End StepEvents.

(** ** Retrying steps *)

(** X1: [navigate_to_lens] never raises, for any number of retries; it
    sleeps 2 seconds after each failed round, and it returns [False]
    exactly when all [retries] rounds failed. *)
Theorem navigate_to_lens_rounds {B} (bk : Backend B) driver image_url timeout
    (retries : nat) (s : St B) :
  exists (b : bool) (k : nat),
    (navigate_to_lens bk driver image_url timeout retries s).1 = Ok b /\
    sleeps (since s (navigate_to_lens bk driver image_url timeout retries s).2)
      = replicate k 2 /\
    (if b then k < retries else k = retries)%nat.
Proof.
  unfold navigate_to_lens.
  destruct (navigate_loop_events bk driver (lens_url_of image_url) timeout retries
              retries 0 s) as (b & evs & Hr & Ht & Hev).
  apply retry_events_sleeps in Hev as (k & Hs & Hk).
  exists b, k. by rewrite (since_app _ _ _ Ht).
Qed.

(** X2: [wait_and_click_find_image_source] never raises; it sleeps 2 seconds
    after each failed round and returns [False] exactly when all [retries]
    rounds failed. *)
Theorem wait_and_click_rounds {B} (bk : Backend B) driver (retries : nat) (s : St B) :
  exists (b : bool) (k : nat),
    (wait_and_click_find_image_source bk driver retries s).1 = Ok b /\
    sleeps (since s (wait_and_click_find_image_source bk driver retries s).2)
      = replicate k 2 /\
    (if b then k < retries else k = retries)%nat.
Proof.
  unfold wait_and_click_find_image_source.
  destruct (click_loop_events bk driver find_source_button retries retries 0 s)
    as (b & evs & Hr & Ht & Hev).
  apply retry_events_sleeps in Hev as (k & Hs & Hk).
  exists b, k. by rewrite (since_app _ _ _ Ht).
Qed.

(** X3: [extract_first_image_metadata] never raises; it sleeps 2 seconds
    after each failed round and returns [None] exactly when all [retries]
    rounds failed. *)
Theorem extract_first_image_metadata_rounds {B} (bk : Backend B) driver
    (retries : nat) (s : St B) :
  exists (r : option (gmap string pyval)) (k : nat),
    (extract_first_image_metadata bk driver retries s).1 = Ok r /\
    sleeps (since s (extract_first_image_metadata bk driver retries s).2)
      = replicate k 2 /\
    match r with Some _ => (k < retries)%nat | None => k = retries end.
Proof.
  unfold extract_first_image_metadata.
  destruct (extract_loop_events bk driver retries retries 0 s)
    as (r & evs & Hr & Ht & Hev).
  apply retry_events_sleeps in Hev as (k & Hs & Hk).
  exists r, k. rewrite (since_app _ _ _ Ht). repeat split; [done.. |].
  destruct r; [by rewrite bool_decide_eq_true_2 in Hk |].
  rewrite bool_decide_eq_false_2 in Hk; [done | by intros []].
Qed.

(** ** Session acquisition, for any number of retries *)

(** X4: [init_driver] opens no session but the one it returns, and closes
    none: when it raises, no browser is left running; it calls
    [webdriver.Chrome] at most [retries] times. *)
Theorem init_driver_opens_only_what_it_returns {B} (bk : Backend B) (retries : nat)
    (s : St B) :
  opened (since s (init_driver bk retries s).2)
    = match (init_driver bk retries s).1 with Ok d => [d] | Raise _ => [] end /\
  closed (since s (init_driver bk retries s).2) = [] /\
  (attempts (since s (init_driver bk retries s).2) <= retries)%nat.
Proof.
  unfold init_driver.
  destruct (init_driver_loop_events bk retries 0 s) as (evs & Ht & Hev).
  rewrite (since_app _ _ _ Ht).
  destruct (init_events_sessions _ _ _ Hev) as [Ho Hc].
  split; [done |]. split; [done |]. by eapply init_events_attempts.
Qed.

Lemma init_events_raise n e evs :
  init_events n (Raise e) evs -> is_WebDriverException e = false.
Proof.
  intros H. remember (Raise e) as r eqn:Hr. revert Hr.
  induction H; intros Hr; simplify_eq; auto.
Qed.

(** X5: [init_driver] never raises a [WebDriverException]: what leaves it is
    the final [Exception] or an error of another class that it did not
    catch. *)
Theorem init_driver_never_raises_webdriver_exception {B} (bk : Backend B)
    (retries : nat) (s : St B) e :
  (init_driver bk retries s).1 = Raise e -> is_WebDriverException e = false.
Proof.
  unfold init_driver. intros H.
  destruct (init_driver_loop_events bk retries 0 s) as (evs & _ & Hev).
  rewrite H in Hev. by eapply init_events_raise.
Qed.

Lemma init_driver_never_raises_webdriver_exception_witness :
  is_WebDriverException init_failed = false.
Proof.
  apply (init_driver_never_raises_webdriver_exception Static.selenium 3
           (mkSt Static.page_no_session [])).
  vm_compute. reflexivity.
Defined.

(** ** The steps of a fetch together *)

Lemma check_no_image_error_cases {B} (bk : Backend B) driver (s : St B) :
  match (check_no_image_error bk driver s).1 with
  | Ok true =>
      trace (check_no_image_error bk driver s).2
        = (trace s ++ [EvLog ERROR "No image found at the URL."])%list
  | Ok false => trace (check_no_image_error bk driver s).2 = trace s
  | Raise e =>
      trace (check_no_image_error bk driver s).2 = trace s /\
      is_TimeoutException e = false /\
      (wait_presence bk driver XPATH no_image_xpath 10 (browser s)).1 = Raise e
  end.
Proof.
  unfold check_no_image_error, try_except, bind, call.
  destruct (wait_presence bk driver XPATH no_image_xpath 10 (browser s))
    as [[[el |] | e] b']; simpl; [done.. |].
  destruct (is_TimeoutException e) eqn:He; simpl; done.
Qed.

(** X6: a fetch that holds a session raises only what the wait for the
    no-match element raised, after a navigation that succeeded, and never a
    [TimeoutException]. *)
Theorem fetch_raises_only_from_no_match_check {B} (bk : Backend B) image_url
    (s : St B) driver s1 e :
  init_driver bk 3 s = (Ok driver, s1) ->
  (get_first_image_metadata bk image_url s).1 = Raise e ->
  is_TimeoutException e = false /\
  exists s2,
    navigate_to_lens bk driver image_url 60 1 s1 = (Ok true, s2) /\
    (wait_presence bk driver XPATH no_image_xpath 10 (browser s2)).1 = Raise e.
Proof.
  intros Hi. rewrite (get_first_image_metadata_acquired bk _ _ _ _ Hi). simpl.
  unfold fetch_steps, bind.
  destruct (navigate_loop_total bk driver (lens_url_of image_url) 60 1 1 0 s1) as [b Hb].
  fold (navigate_to_lens bk driver image_url 60 1) in Hb.
  destruct (navigate_to_lens bk driver image_url 60 1 s1) as [r s2]. simpl in Hb. subst r.
  destruct b; simpl; [| done].
  pose proof (check_no_image_error_cases bk driver s2) as Hc.
  destruct (check_no_image_error bk driver s2) as [[[] | e'] s3]; simpl in Hc.
  - done.
  - destruct (click_loop_total bk driver find_source_button 1 1 0 s3) as [c Hcl].
    fold (wait_and_click_find_image_source bk driver 1) in Hcl.
    destruct (wait_and_click_find_image_source bk driver 1 s3) as [r s4].
    simpl in Hcl. subst r. destruct c; simpl; [| done].
    destruct (extract_loop_total bk driver 1 1 0 s4) as [x Hx].
    fold (extract_first_image_metadata bk driver 1) in Hx. by rewrite Hx.
  - intros He. destruct Hc as (_ & Ht & Hw). simpl in He. simplify_eq. eauto.
Qed.

Lemma fetch_raises_only_from_no_match_check_witness :
  is_TimeoutException Static.invalid_session = false.
Proof.
  assert (H : init_driver Static.selenium 3 (mkSt Static.page_dead [])
              = (Ok 0%nat,
                 mkSt Static.page_dead
                   [EvChrome (Ok 0%nat); EvLog INFO "WebDriver initialized successfully"]))
    by (vm_compute; reflexivity).
  apply (fetch_raises_only_from_no_match_check Static.selenium "http://x/7.png"
           _ _ _ Static.invalid_session H).
  vm_compute. reflexivity.
Defined.

(** One round of each retrying step, as [get_first_image_metadata] runs
    them. *)
Lemma navigate_once {B} (bk : Backend B) driver image_url (s : St B) :
  exists (b : bool) evs,
    (navigate_to_lens bk driver image_url 60 1 s).1 = Ok b /\
    trace (navigate_to_lens bk driver image_url 60 1 s).2 = (trace s ++ evs)%list /\
    if b then evs = [EvLog INFO ("Successfully navigated to " ++ lens_url_of image_url)]
    else exists msg, evs = [EvLog ERROR msg; EvSleep 2].
Proof.
  destruct (navigate_loop_events bk driver (lens_url_of image_url) 60 1 1 0 s)
    as (b & evs & Hr & Ht & Hev).
  exists b, evs. split; [done |]. split; [done |]. by apply retry_events_once in Hev.
Qed.

Lemma click_once {B} (bk : Backend B) driver (s : St B) :
  exists (b : bool) evs,
    (wait_and_click_find_image_source bk driver 1 s).1 = Ok b /\
    trace (wait_and_click_find_image_source bk driver 1 s).2 = (trace s ++ evs)%list /\
    if b then evs = [EvLog INFO "Clicked 'Find image source' button"]
    else exists msg, evs = [EvLog ERROR msg; EvSleep 2].
Proof.
  destruct (click_loop_events bk driver find_source_button 1 1 0 s)
    as (b & evs & Hr & Ht & Hev).
  exists b, evs. split; [done |]. split; [done |]. by apply retry_events_once in Hev.
Qed.

Lemma extract_once {B} (bk : Backend B) driver (s : St B) :
  exists (r : option (gmap string pyval)) evs,
    (extract_first_image_metadata bk driver 1 s).1 = Ok r /\
    trace (extract_first_image_metadata bk driver 1 s).2 = (trace s ++ evs)%list /\
    match r with
    | Some _ => evs = [EvLog INFO "Successfully extracted metadata"]
    | None => exists msg, evs = [EvLog ERROR msg; EvSleep 2]
    end.
Proof.
  destruct (extract_loop_events bk driver 1 1 0 s) as (r & evs & Hr & Ht & Hev).
  exists r, evs. split; [done |]. split; [done |].
  apply retry_events_once in Hev. destruct r.
  - by rewrite bool_decide_eq_true_2 in Hev.
  - rewrite bool_decide_eq_false_2 in Hev; [done | by intros []].
Qed.

(** X7: a fetch whose steps return a record has written exactly three
    [INFO] lines since it acquired its session, one per step that talks to
    the page: it has not slept and has logged no error. *)
Theorem successful_steps_log_three_lines {B} (bk : Backend B) driver image_url
    (s : St B) md s' :
  fetch_steps bk driver image_url s = (Ok (Some md), s') ->
  since s s' =
    [EvLog INFO ("Successfully navigated to " ++ lens_url_of image_url);
     EvLog INFO "Clicked 'Find image source' button";
     EvLog INFO "Successfully extracted metadata"].
Proof.
  unfold fetch_steps, bind, ret. intros H. apply since_app.
  destruct (navigate_once bk driver image_url s) as (b & e1 & Hr1 & Ht1 & He1).
  destruct (navigate_to_lens bk driver image_url 60 1 s) as [r1 s1].
  simpl in Hr1, Ht1. subst r1. destruct b; simpl in H; [| done]. subst e1.
  pose proof (check_no_image_error_cases bk driver s1) as Hc.
  destruct (check_no_image_error bk driver s1) as [[[] | ?] s2]; simpl in Hc; [done | | done].
  destruct (click_once bk driver s2) as (c & e3 & Hr3 & Ht3 & He3).
  destruct (wait_and_click_find_image_source bk driver 1 s2) as [r3 s3].
  simpl in Hr3, Ht3. subst r3. destruct c; simpl in H; [| done]. subst e3.
  destruct (extract_once bk driver s3) as (x & e4 & Hr4 & Ht4 & He4).
  rewrite H in Hr4, Ht4. simpl in Hr4, Ht4. simplify_eq.
  rewrite Ht4, Ht3, Hc, Ht1. by rewrite <- !app_assoc.
Qed.

Lemma successful_steps_log_three_lines_witness :
  exists s',
    since (mkSt Static.page_match []) s' =
      [EvLog INFO ("Successfully navigated to " ++ lens_url_of "http://x/1.png");
       EvLog INFO "Clicked 'Find image source' button";
       EvLog INFO "Successfully extracted metadata"].
Proof.
  exists (fetch_steps Static.selenium 0%nat "http://x/1.png"
            (mkSt Static.page_match [])).2.
  apply (successful_steps_log_three_lines Static.selenium 0%nat "http://x/1.png" _
           (metadata_dict (PStr "A cat") (PStr "example.org")
              (PStr "http://example.org/cat"))).
  vm_compute. reflexivity.
Defined.

(** ** One task as a whole *)

Lemma sleeps_app evs evs' : sleeps (evs ++ evs') = (sleeps evs ++ sleeps evs')%list.
Proof. apply omap_app. Qed.

Lemma init_events_sleeps n r evs :
  init_events n r evs ->
  exists k : nat, sleeps evs = replicate k 2 /\
    match r with Ok _ => (k < n)%nat | Raise _ => (k <= n)%nat end.
Proof.
  induction 1 as [| n d | n e He | n e msg r evs He _ (k & Hs & Hk)].
  - by exists 0%nat.
  - exists 0%nat. split; [done | lia].
  - exists 0%nat. split; [done | lia].
  - exists (S k). unfold sleeps in *. cbn. rewrite Hs. split; [done |].
    destruct r; lia.
Qed.

(** After the session is acquired a fetch sleeps at most once: the first
    step that fails ends it. *)
Lemma fetch_steps_sleeps {B} (bk : Backend B) driver image_url (s : St B) :
  exists evs (k : nat),
    trace (fetch_steps bk driver image_url s).2 = (trace s ++ evs)%list /\
    sleeps evs = replicate k 2 /\ (k <= 1)%nat.
Proof.
  unfold fetch_steps, bind, ret.
  destruct (navigate_once bk driver image_url s) as (b & e1 & Hr1 & Ht1 & He1).
  destruct (navigate_to_lens bk driver image_url 60 1 s) as [r1 s1].
  simpl in Hr1, Ht1. subst r1. destruct b; simpl.
  2: { destruct He1 as [msg ->]. exists [EvLog ERROR msg; EvSleep 2], 1%nat.
       split; [done | split; [done | lia]]. }
  subst e1. pose proof (check_no_image_error_cases bk driver s1) as Hc.
  destruct (check_no_image_error bk driver s1) as [[[] | ?] s2]; simpl in Hc; simpl.
  - eexists _, 0%nat. rewrite Hc, Ht1, <- app_assoc. split; [reflexivity | split; [done | lia]].
  - destruct (click_once bk driver s2) as (c & e3 & Hr3 & Ht3 & He3).
    destruct (wait_and_click_find_image_source bk driver 1 s2) as [r3 s3].
    simpl in Hr3, Ht3. subst r3. destruct c; simpl.
    2: { destruct He3 as [msg ->]. eexists _, 1%nat.
         rewrite Ht3, Hc, Ht1, <- app_assoc. split; [reflexivity | split; [done | lia]]. }
    subst e3. destruct (extract_once bk driver s3) as (x & e4 & Hr4 & Ht4 & He4).
    destruct x as [md |].
    + subst e4. eexists _, 0%nat. rewrite Ht4, Ht3, Hc, Ht1, <- !app_assoc. split; [reflexivity | split; [done | lia]].
    + destruct He4 as [msg ->]. eexists _, 1%nat.
      rewrite Ht4, Ht3, Hc, Ht1, <- !app_assoc. split; [reflexivity | split; [done | lia]].
  - destruct Hc as (Hc & _). eexists _, 0%nat. simpl. rewrite Hc, Ht1. split; [reflexivity | split; [done | lia]].
Qed.

(** What [process_image] returns and logs, from what the fetch returned. *)
Lemma process_image_cases {B} (bk : Backend B) image_id image_url csv (s : St B) :
  (process_image bk image_id image_url csv s).1 =
    match (get_first_image_metadata bk image_url s).1 with
    | Ok (Some md) => Ok (Some (output_row image_id image_url md))
    | Ok None => Ok None
    | Raise e => Raise e
    end /\
  trace (process_image bk image_id image_url csv s).2 =
    (trace (get_first_image_metadata bk image_url s).2 ++
     match (get_first_image_metadata bk image_url s).1 with
     | Ok None => [EvLog ERROR ("No data for image " ++ image_id ++ ".")]
     | _ => []
     end)%list.
Proof.
  destruct (get_first_image_metadata bk image_url s) as [[[md |] | e] s1] eqn:Hg.
  - rewrite (process_image_some bk _ _ _ _ _ _ Hg). simpl. by rewrite app_nil_r.
  - by rewrite (process_image_none bk _ _ _ _ _ Hg).
  - unfold process_image, bind. rewrite Hg. simpl. by rewrite app_nil_r.
Qed.

(** X8: what [process_image] returns and logs, from what the fetch
    returned: a record gives a row and no log line; the absent result gives
    nothing and the line "No data for image <id>."; an exception passes
    through unlogged.  (A fetch never returns an empty dict, so the test
    [not image_data] fires on [None] only.) *)
Theorem process_image_outcome {B} (bk : Backend B) image_id image_url csv (s : St B) :
  (process_image bk image_id image_url csv s).1 =
    match (get_first_image_metadata bk image_url s).1 with
    | Ok (Some md) => Ok (Some (output_row image_id image_url md))
    | Ok None => Ok None
    | Raise e => Raise e
    end /\
  trace (process_image bk image_id image_url csv s).2 =
    (trace (get_first_image_metadata bk image_url s).2 ++
     match (get_first_image_metadata bk image_url s).1 with
     | Ok None => [EvLog ERROR ("No data for image " ++ image_id ++ ".")]
     | _ => []
     end)%list.
Proof. apply process_image_cases. Qed.

Lemma get_first_image_metadata_sleeps {B} (bk : Backend B) image_url (s : St B) :
  exists evs (k : nat),
    trace (get_first_image_metadata bk image_url s).2 = (trace s ++ evs)%list /\
    sleeps evs = replicate k 2 /\ (k <= 3)%nat.
Proof.
  destruct (init_driver_loop_events bk 3 0 s) as (evs0 & Ht0 & Hev0).
  fold (init_driver bk 3) in Ht0, Hev0.
  apply init_events_sleeps in Hev0 as (k0 & Hs0 & Hk0).
  destruct (init_driver bk 3 s) as [[d | e] s1] eqn:Hi; simpl in Ht0, Hk0.
  - rewrite (get_first_image_metadata_acquired bk _ _ _ _ Hi). simpl.
    destruct (fetch_steps_sleeps bk d image_url s1) as (evs1 & k1 & Ht1 & Hs1 & Hk1).
    exists (evs0 ++ evs1 ++ [EvQuit d])%list, (k0 + k1)%nat.
    rewrite Ht1, Ht0, !sleeps_app, Hs0, Hs1, <- !app_assoc. cbn.
    rewrite app_nil_r, replicate_add. split; [done |]. split; [done | lia].
  - rewrite (get_first_image_metadata_not_acquired bk _ _ _ _ Hi). simpl.
    exists evs0, k0. done.
Qed.

(** X9: a task sleeps at most three times, 2 seconds each time, whatever
    the browser does: up to three times while starting the browser, or up
    to twice there and once in the step that fails. *)
Theorem task_sleeps_at_most_three {B} (bk : Backend B) world image_id image_url csv :
  exists k : nat,
    sleeps (trace (run_task bk world image_id image_url csv).2) = replicate k 2 /\
    (k <= 3)%nat.
Proof.
  unfold run_task, Future.
  pose proof (process_image_cases bk image_id image_url csv
                (mkSt (world image_id image_url) [])) as [_ Hp].
  destruct (get_first_image_metadata_sleeps bk image_url
              (mkSt (world image_id image_url) [])) as (evs & k & Ht & Hs & Hk).
  simpl in Ht. exists k. rewrite Hp, Ht, sleeps_app, Hs. split; [| done].
  destruct (get_first_image_metadata bk image_url _).1 as [[?|]|?]; cbn;
    by rewrite app_nil_r.
Qed.


(** ** Rows and the file *)

(** X11: a row returned by [process_image] has exactly the six keys of the
    header, so the writer neither meets an unknown key nor fills a column
    with its default; its [position] is 1. *)
Theorem returned_row_has_the_header_columns {B} (bk : Backend B) image_id image_url
    csv (s : St B) row s' :
  process_image bk image_id image_url csv s = (Ok (Some row), s') ->
  dom row = list_to_set fieldnames /\
  Forall (fun k => is_Some (row !! k)) fieldnames /\
  row !! "position" = Some (PInt 1).
Proof.
  intros H. apply process_image_inv in H as (md & Hg & ->).
  apply get_first_image_metadata_some in Hg as (t & so & l & ->).
  destruct (metadata_dict_keys t so l) as (Hp & _).
  unfold output_row, fieldnames, dict_get. rewrite Hp. split.
  { rewrite !dom_insert_L, dom_empty_L. set_solver. }
  split; [| by simplify_map_eq].
  repeat constructor; by simplify_map_eq.
Qed.

Lemma returned_row_has_the_header_columns_witness :
  dom (output_row "a" "http://x/1.png"
         (metadata_dict (PStr "A cat") (PStr "example.org")
            (PStr "http://example.org/cat")))
    = list_to_set fieldnames.
Proof.
  assert (H : process_image Static.selenium "a" "http://x/1.png" "out.csv"
                (mkSt Static.page_match [])
              = (Ok (Some (output_row "a" "http://x/1.png"
                             (metadata_dict (PStr "A cat") (PStr "example.org")
                                (PStr "http://example.org/cat")))),
                 (process_image Static.selenium "a" "http://x/1.png" "out.csv"
                    (mkSt Static.page_match [])).2))
    by (vm_compute; reflexivity).
  exact (proj1 (returned_row_has_the_header_columns Static.selenium _ _ _ _ _ _ H)).
Defined.

(** X12: every data row of the output file has six cells, has "1" in its
    [position] column and differs from the header line. *)
Theorem data_rows_are_well_formed {B} (bk : Backend B) world sched
    (urls_data : gmap string string) (csv : string) (max_workers : Z) (sys : Sys)
    (line : list string) :
  line ∈ data_rows csv (main bk world sched urls_data csv max_workers sys).2 ->
  length line = 6%nat /\ line !! 2%nat = Some "1" /\ line <> fieldnames.
Proof.
  intros Hin.
  apply data_rows_origin in Hin as (k & v & row & _ & Hrow & _ & _ & -> & _).
  destruct (run_task bk world k v csv) as [r s1] eqn:Ht. simpl in Hrow. subst r.
  unfold run_task in Ht. apply process_image_inv in Ht as (md & Hg & ->).
  apply get_first_image_metadata_some in Hg as (t & so & l & ->).
  rewrite dict_to_list_output_row.
  destruct (metadata_dict_keys t so l) as (Hp & _).
  unfold dict_get at 1. rewrite Hp. simpl. repeat split. by intros [=].
Qed.

Lemma data_rows_are_well_formed_witness :
  length ["a"; "http://x/1.png"; "1"; "A cat"; "example.org"; "http://example.org/cat"]
    = 6%nat.
Proof.
  assert (H : ["a"; "http://x/1.png"; "1"; "A cat"; "example.org"; "http://example.org/cat"]
              ∈ data_rows "out.csv"
                  (main Static.selenium Static.world Static.in_order urls_ab "out.csv" 5
                     Static.sys0).2).
  { vm_compute. constructor. }
  exact (proj1 (data_rows_are_well_formed Static.selenium Static.world Static.in_order
                  urls_ab "out.csv" 5 Static.sys0 _ H)).
Defined.

Lemma NoDup_omap_key {A} (g : A -> option (list string)) (key : A -> string)
    (l : list A) :
  NoDup (key <$> l) ->
  (forall x y, g x = Some y -> y !! 0%nat = Some (key x)) ->
  NoDup ((fun y : list string => y !! 0%nat) <$> omap g l).
Proof.
  intros Hnd Hg. induction l as [| x l IH]; [constructor |].
  rewrite fmap_cons in Hnd. apply NoDup_cons in Hnd as [Hx Hnd].
  cbn. destruct (g x) as [y |] eqn:Hy; [| by apply IH].
  cbn. apply NoDup_cons. split; [| by apply IH].
  intros (y' & Hy' & Hin)%list_elem_of_fmap.
  apply list_elem_of_omap in Hin as (x' & Hx' & Hgx').
  apply Hx. apply list_elem_of_fmap. exists x'. split; [| done].
  apply Hg in Hy, Hgx'. congruence.
Qed.

(** X13: no two data rows of the output file carry the same identifier: an
    input record gives at most one row. *)
Theorem id_column_has_no_duplicates {B} (bk : Backend B) world sched
    (urls_data : gmap string string) (csv : string) (max_workers : Z) (sys : Sys) :
  NoDup ((fun line : list string => line !! 0%nat) <$>
           data_rows csv (main bk world sched urls_data csv max_workers sys).2).
Proof.
  destruct (data_rows_prefix bk world sched urls_data csv max_workers sys) as [rest Hp].
  assert (Hnd : NoDup ((fun line : list string => line !! 0%nat) <$>
            lines_of (as_completed sched max_workers
                        (submit_all bk world urls_data csv)))).
  { rewrite (lines_of_perm _ _ (as_completed_perm sched max_workers _)).
    unfold submit_all. rewrite <- omap_row_of_fmap.
    apply (NoDup_omap_key _ fst); [apply NoDup_fst_map_to_list |].
    intros [k v] y Hy. simpl in *.
    destruct (run_task bk world k v csv) as [[[row |] | e] s1] eqn:Ht; simplify_eq.
    unfold run_task in Ht. apply process_image_inv in Ht as (md & _ & ->).
    change (Some (dict_to_list (output_row k v md)) = Some y) in Hy.
    simplify_eq. by rewrite dict_to_list_output_row. }
  rewrite Hp, fmap_app in Hnd. by apply NoDup_app in Hnd as [? _].
Qed.

(** A run that returns: what must have held. *)
Lemma main_returned {B} (bk : Backend B) world sched
    (urls_data : gmap string string) (csv : string) (max_workers : Z) (sys : Sys) :
  (main bk world sched urls_data csv max_workers sys).1 = Ok tt ->
  sink_opens csv sys /\
  0 < max_workers /\
  Forall (fun f => raises f = false) (submit_all bk world urls_data csv) /\
  all_encodable (lines_of (submit_all bk world urls_data csv)).
Proof.
  intros H. destruct (sys_open_cases csv ModeW sys) as [Ho | [e Ho]].
  2: { destruct (main_not_opened bk world sched urls_data csv max_workers sys e Ho)
         as [Hm _]. by rewrite Hm in H. }
  split; [done |]. rewrite (main_opened bk world sched _ _ _ _ Ho) in H.
  destruct (Z.leb_spec max_workers 0) as [? | Hw]; [done |]. split; [done |].
  destruct (collect _ []) as [all_data | e] eqn:Hc; [| done].
  pose proof (collect_returned _ _ _ Hc) as Hr. rewrite as_completed_perm in Hr.
  split; [done |].
  rewrite (collect_submitted bk world sched _ _ _ Hr) in Hc. simplify_eq.
  simpl in H. apply write_lines_returns in H. unfold all_encodable in *.
  by rewrite <- (lines_of_perm _ _ (as_completed_perm sched max_workers _)).
Qed.




(** X16: in a run that returns, the data rows stand in the file in the
    order in which the tasks completed. *)
Theorem rows_in_completion_order {B} (bk : Backend B) world sched
    (urls_data : gmap string string) (csv : string) (max_workers : Z) (sys : Sys) :
  (main bk world sched urls_data csv max_workers sys).1 = Ok tt ->
  data_rows csv (main bk world sched urls_data csv max_workers sys).2 =
    dict_to_list <$>
      omap row_of (as_completed sched max_workers (submit_all bk world urls_data csv)).
Proof.
  intros (Ho & Hw & Hr & He)%main_returned. by apply data_rows_returns.
Qed.

Lemma rows_in_completion_order_witness :
  data_rows "out.csv"
    (main Static.selenium Static.world Static.reversed urls_ah "out.csv" 5 Static.sys0).2 =
    dict_to_list <$>
      omap row_of (reverse (submit_all Static.selenium Static.world urls_ah "out.csv")).
Proof.
  apply (rows_in_completion_order Static.selenium Static.world Static.reversed
           urls_ah "out.csv" 5 Static.sys0).
  vm_compute. reflexivity.
Defined.

(** The two records of [urls_ah] give two rows, and the order of completion
    decides which comes first. *)
Example two_rows_in_two_orders :
  data_rows "out.csv"
    (main Static.selenium Static.world Static.reversed urls_ah "out.csv" 5 Static.sys0).2
  = reverse
      (data_rows "out.csv"
         (main Static.selenium Static.world Static.in_order urls_ah "out.csv" 5
            Static.sys0).2) /\
  length
    (data_rows "out.csv"
       (main Static.selenium Static.world Static.in_order urls_ah "out.csv" 5
          Static.sys0).2) = 2%nat.
Proof. vm_compute. split; reflexivity. Qed.


